(** * District Builder setup script (django/publicmapping/setup.py)

    A shallow embedding of [validate_config], [merge_config] and
    [create_report_templates], together with the properties of the
    configuration pipeline: schema validation, ID/REF integrity,
    settings generation and report template generation.

    The script is Python 2.  Its effects are console output, reads and
    writes of files, calls into lxml and draws from [random]; they are
    modelled by a state-and-exception monad over an explicit [world].
    Tags, attribute values and file contents are byte strings; a
    document is its tree of elements, without text, comments or
    namespaces. lxml hands an attribute value that is not ASCII over
    as a unicode object: such a value cannot be written to the
    settings file, and it is lowered by Python's Unicode tables. *)

From Stdlib Require Import Ascii String DecimalString.
From stdpp Require Import gmap strings list.

Open Scope string_scope.
Open Scope Z_scope.
Open Scope list_scope.

(** ** Strings *)

Definition newline : ascii := "010"%char.
Definition nl : string := String newline EmptyString.

(** Whether a value is ASCII, that is, whether lxml returns it as a
    byte string. *)
Definition is_ascii (s : string) : bool :=
  forallb (fun c => (nat_of_ascii c <? 128)%nat) (list_ascii_of_string s).

(** [str.lower()] on a byte string: only A-Z are changed. *)
Definition lower_ascii (c : ascii) : ascii :=
  let n := nat_of_ascii c in
  if ((65 <=? n) && (n <=? 90))%nat then ascii_of_nat (n + 32) else c.

Fixpoint lower (s : string) : string :=
  match s with
  | EmptyString => EmptyString
  | String c s' => String (lower_ascii c) (lower s')
  end.

(** [file.readlines()]: the content cut after every newline. *)
Fixpoint readlines (s : string) : list string :=
  match s with
  | EmptyString => []
  | String c s' =>
      if Ascii.eqb c newline then String c EmptyString :: readlines s'
      else match readlines s' with
           | [] => [String c EmptyString]
           | l :: ls => String c l :: ls
           end
  end.

(** [str.splitlines()] without the line ends, to look for a line in a
    generated file. *)
Fixpoint splitlines (s : string) : list string :=
  match s with
  | EmptyString => []
  | String c s' =>
      if Ascii.eqb c newline then EmptyString :: splitlines s'
      else match splitlines s' with
           | [] => [String c EmptyString]
           | l :: ls => String c l :: ls
           end
  end.

Definition has_line (l : string) (text : string) : bool :=
  existsb (String.eqb l) (splitlines text).

(** [os.path.dirname]: the path up to its last slash, without the
    slashes that end it unless it is made of slashes only; empty when
    the path has no slash. *)
Fixpoint upto_last_slash (p : string) : option string :=
  match p with
  | EmptyString => None
  | String c p' =>
      match upto_last_slash p' with
      | Some h => Some (String c h)
      | None => if Ascii.eqb c "/" then Some (String c EmptyString) else None
      end
  end.

Fixpoint rstrip_slashes (s : string) : string :=
  match s with
  | EmptyString => EmptyString
  | String c s' =>
      match rstrip_slashes s' with
      | EmptyString => if Ascii.eqb c "/" then EmptyString else String c EmptyString
      | r => String c r
      end
  end.

Definition dirname (p : string) : string :=
  match upto_last_slash p with
  | None => EmptyString
  | Some h =>
      match rstrip_slashes h with
      | EmptyString => h
      | r => r
      end
  end.

(** ** Python values that reach [int()] and [%d] *)

Inductive exn :=
  | IOError | IndexError | TypeError | ValueError | NameError
  | AttributeError | XMLSyntaxError | XMLSchemaParseError
  | XSLTParseError | XSLTApplyError | UnicodeEncodeError.

Inductive result (A : Type) :=
  | Ok (a : A)
  | Raise (e : exn).
Arguments Ok {A} a.
Arguments Raise {A} e.

(** Unicode objects follow the Unicode tables of the interpreter:
    [unicode_lower] is [unicode.lower()] and [unicode_int] is [int()]
    on the text of a value that is not ASCII. The latter accepts the
    decimal digits and the spaces of every script, and raises
    [ValueError] or [UnicodeEncodeError] otherwise. *)
Class Unicode := {
  unicode_lower : string -> string;
  unicode_int : string -> result Z;
}.

(** [s.lower()] for a value that lxml returned: a byte string when
    it is ASCII, a unicode object otherwise. *)
Definition py_lower `{Unicode} (s : string) : string :=
  if is_ascii s then lower s else unicode_lower s.

Inductive pyval :=
  | PNone
  | PStr (s : string)
  | PInt (n : Z).

Definition of_attr (o : option string) : pyval :=
  match o with Some s => PStr s | None => PNone end.

(** Truth value of [None], a string or an int. *)
Definition truthy (v : pyval) : bool :=
  match v with
  | PNone => false
  | PStr s => negb (String.eqb s EmptyString)
  | PInt n => negb (n =? 0)
  end.

(** [a or b] *)
Definition py_or (a b : pyval) : pyval := if truthy a then a else b.

Definition is_space (c : ascii) : bool :=
  let n := nat_of_ascii c in ((n =? 32) || ((9 <=? n) && (n <=? 13)))%nat.

Fixpoint lstrip (s : string) : string :=
  match s with
  | String c s' => if is_space c then lstrip s' else s
  | EmptyString => EmptyString
  end.

Definition digit_of (c : ascii) : option Z :=
  let n := nat_of_ascii c in
  if ((48 <=? n) && (n <=? 57))%nat then Some (Z.of_nat (n - 48)) else None.

(** Digits, then only white space up to the end. [seen] tells whether a
    digit was read. *)
Fixpoint digits (seen : bool) (acc : Z) (s : string) : option Z :=
  match s with
  | EmptyString => if seen then Some acc else None
  | String c s' =>
      match digit_of c with
      | Some d => digits true (10 * acc + d) s'
      | None =>
          if seen && is_space c && String.eqb (lstrip s') EmptyString
          then Some acc else None
      end
  end.

(** [int(s)] for a byte string: white space, an optional sign, decimal
    digits, white space; anything else is a [ValueError]. The integers
    of Python 2 grow into [long] as needed. *)
Definition int_of_string (s : string) : option Z :=
  match lstrip s with
  | String "-" s' => Z.opp <$> digits false 0 s'
  | String "+" s' => digits false 0 s'
  | s' => digits false 0 s'
  end.

Definition py_int `{Unicode} (v : pyval) : result Z :=
  match v with
  | PNone => Raise TypeError
  | PInt n => Ok n
  | PStr s =>
      if is_ascii s then
        match int_of_string s with
        | Some n => Ok n
        | None => Raise ValueError
        end
      else unicode_int s
  end.

(** ["%d" % n] *)
Definition fmt_d (n : Z) : string := NilZero.string_of_int (Z.to_int n).

(** ["%s" % v] for the result of an attribute lookup. *)
Definition fmt_s (o : option string) : string :=
  match o with Some s => s | None => "None" end.

(** ** The configuration document *)

#[warnings="-register-all"]
Inductive element :=
  | Element (tag : string) (attrib : list (string * string))
            (children : list element).

Definition tag (e : element) : string :=
  match e with Element t _ _ => t end.
Definition attrib (e : element) : list (string * string) :=
  match e with Element _ a _ => a end.
Definition children (e : element) : list element :=
  match e with Element _ _ c => c end.

Fixpoint assoc (k : string) (l : list (string * string)) : option string :=
  match l with
  | [] => None
  | (k', v) :: l' => if String.eqb k k' then Some v else assoc k l'
  end.

(** [e.get(k)] *)
Definition get (e : element) (k : string) : option string :=
  assoc k (attrib e).

(** [e.get(k, default)] *)
Definition get_default (e : element) (k d : string) : string :=
  default d (get e k).

(** Every element of the document in document order, each with the
    tags of its ancestors, nearest first. *)
Fixpoint walk (anc : list string) (e : element) : list (list string * element) :=
  match e with
  | Element t _ cs => (anc, e) :: flat_map (walk (t :: anc)) cs
  end.

Definition iter (e : element) : list element := (walk [] e).*2.

Fixpoint is_prefix (p l : list string) : bool :=
  match p, l with
  | [], _ => true
  | x :: p', y :: l' => String.eqb x y && is_prefix p' l'
  | _ :: _, [] => false
  end.

(** [//A/B/C]: an element matches when its tag is [C], its parent's tag
    [B] and its grandparent's [A]. *)
Definition on_path (steps : list string) (n : list string * element) : bool :=
  is_prefix (rev steps) (tag n.2 :: n.1).

Definition select (steps : list string) (root : element) : list element :=
  (filter (fun n => on_path steps n = true) (walk [] root)).*2.

Definition has_attr (k : string) (e : element) : bool :=
  match get e k with Some _ => true | None => false end.

(** [//T[@k]] *)
Definition select_attr (t k : string) (root : element) : list element :=
  filter (fun e => has_attr k e = true) (select [t] root).

Definition children_named (t : string) (e : element) : list element :=
  filter (fun c => String.eqb (tag c) t = true) (children e).

(** [e.find('A/B')]: the first [B] child of an [A] child of [e]. *)
Definition find2 (a b : string) (e : element) : option element :=
  head (flat_map (children_named b) (children_named a e)).

(** ** The world the script runs in *)

(** A path names a regular file with its content, or something that
    exists and cannot be opened (a directory, a file without
    permission). *)
Inductive fnode :=
  | Regular (content : string)
  | Locked.

(** What [print] sends to the console. *)
Inductive output :=
  | Text (s : string)
  | Traceback (e : exn)
  | SchemaError (detail : string).

(** Calls into lxml, in the order they are made. *)
Inductive call :=
  | CParse (path : string)
  | CXMLSchema
  | CValidate
  | CXPath (query : string)
  | CXSLT
  | CTransform (param : string).

Record world := World {
  files : gmap string fnode;   (* the file system *)
  wdirs : gset string;         (* directories in which files can be created *)
  stdout : list output;        (* printed so far, oldest first *)
  calls : list call;           (* lxml calls so far, oldest first *)
  rng : nat -> nat;            (* the draws of the random generator *)
  drawn : nat;                 (* how many were consumed *)
}.

Definition set_files (f : gmap string fnode -> gmap string fnode) (w : world) : world :=
  World (f (files w)) (wdirs w) (stdout w) (calls w) (rng w) (drawn w).
Definition add_stdout (o : output) (w : world) : world :=
  World (files w) (wdirs w) (stdout w ++ [o]) (calls w) (rng w) (drawn w).
Definition add_call (c : call) (w : world) : world :=
  World (files w) (wdirs w) (stdout w) (calls w ++ [c]) (rng w) (drawn w).
Definition next_draw (w : world) : world :=
  World (files w) (wdirs w) (stdout w) (calls w) (rng w) (S (drawn w)).

(** The content of a regular file, if there is one at [p]. *)
Definition content_of (p : string) (w : world) : option string :=
  match files w !! p with
  | Some (Regular c) => Some c
  | _ => None
  end.

(** ** State and exceptions *)

Definition M (A : Type) : Type := world -> result A * world.

Definition ret {A} (a : A) : M A := fun w => (Ok a, w).
Definition raise {A} (e : exn) : M A := fun w => (Raise e, w).
Definition bind {A B} (m : M A) (k : A -> M B) : M B :=
  fun w => match m w with
           | (Ok a, w') => k a w'
           | (Raise e, w') => (Raise e, w')
           end.

Notation "x <- m ;; k" := (bind m (fun x => k))
  (at level 100, m at next level, right associativity).
Notation "m ;; k" := (bind m (fun _ => k))
  (at level 100, right associativity).

(** [try: m  except Exception, ex: h ex], followed by [k] when [m] did
    not raise. Only [m] is protected. *)
Definition try_except {A B} (m : M A) (h : exn -> M B) (k : A -> M B) : M B :=
  fun w => match m w with
           | (Ok a, w') => k a w'
           | (Raise e, w') => h e w'
           end.

Definition lift {A} (r : result A) : M A := fun w => (r, w).
Definition when (b : bool) (m : M unit) : M unit := if b then m else ret tt.

Fixpoint for_each {A} (l : list A) (body : A -> M unit) : M unit :=
  match l with
  | [] => ret tt
  | x :: l' => body x ;; for_each l' body
  end.

(** ** Primitive operations *)

Definition print (o : output) : M unit := fun w => (Ok tt, add_stdout o w).
Definition log (c : call) : M unit := fun w => (Ok tt, add_call c w).

(** [os.path.exists] *)
Definition exists_ (p : string) : M bool :=
  fun w => (Ok (bool_decide (is_Some (files w !! p))), w).

(** [open(p, 'r')] and the reads that follow: the content of [p]. *)
Definition open_r (p : string) : M string :=
  fun w => match files w !! p with
           | Some (Regular c) => (Ok c, w)
           | _ => (Raise IOError, w)
           end.

(** [open(p, 'w')]: an existing regular file is truncated, a new one is
    created when its directory allows it. *)
Definition open_w (p : string) : M unit :=
  fun w => match files w !! p with
           | Some (Regular _) => (Ok tt, set_files <[p := Regular EmptyString]> w)
           | Some Locked => (Raise IOError, w)
           | None =>
               if bool_decide (dirname p ∈ wdirs w)
               then (Ok tt, set_files <[p := Regular EmptyString]> w)
               else (Raise IOError, w)
           end.

Definition fappend (s : string) (n : fnode) : fnode :=
  match n with
  | Regular c => Regular (c +:+ s)
  | Locked => Locked
  end.

(** [f.write(s)] on a file opened for writing at [p]. *)
Definition write (p s : string) : M unit :=
  fun w => (Ok tt, set_files (alter (fappend s) p) w).

(** [random.choice(seq)] *)
Definition choice (seq : string) : M ascii :=
  fun w => match String.get (rng w (drawn w) `mod` String.length seq)%nat seq with
           | Some c => (Ok c, next_draw w)
           | None => (Raise IndexError, next_draw w)
           end.

(** [l[0]] *)
Definition first {A} (l : list A) : M A :=
  match l with
  | x :: _ => ret x
  | [] => raise IndexError
  end.

(** ** lxml

    The parser, the schema validator and the XSLT engine are lxml's;
    the script only calls them. *)
Class Lxml := {
  xml_parse : string -> option element;         (* a file's content, well-formed or not *)
  xsd_compile : element -> bool;                (* XMLSchema(doc) accepts doc *)
  xsd_validate : element -> element -> bool;    (* schema.validate(tree) *)
  xsd_last_error : element -> element -> string;
  xslt_compile : element -> bool;               (* XSLT(doc) accepts doc *)
  xslt_apply : element -> element -> string -> option string;
                                                (* str(transform(tree, legislativebody=p)) *)
}.

Section Script.
Context `{Lxml} {unicode_tables : Unicode}.

(** [parse(p)] for a path. *)
Definition parse (p : string) : M element :=
  log (CParse p) ;;
  c <- open_r p ;;
  match xml_parse c with
  | Some t => ret t
  | None => raise XMLSyntaxError
  end.

(** [XMLSchema(doc)]: the schema object is represented by its document. *)
Definition XMLSchema (doc : element) : M element :=
  log CXMLSchema ;;
  if xsd_compile doc then ret doc else raise XMLSchemaParseError.

(** [schema.validate(tree)] *)
Definition validate (schema tree : element) : M bool :=
  log CValidate ;; ret (xsd_validate schema tree).

Definition path_string (steps : list string) : string :=
  "//" +:+ String.concat "/" steps.

(** [tree.xpath('//A/B')] *)
Definition xpath (steps : list string) (tree : element) : M (list element) :=
  log (CXPath (path_string steps)) ;; ret (select steps tree).

(** [tree.xpath('//T[@k]')] *)
Definition xpath_attr (t k : string) (tree : element) : M (list element) :=
  log (CXPath ("//" +:+ t +:+ "[@" +:+ k +:+ "]")) ;; ret (select_attr t k tree).

(** *** validate_config *)

Definition msg_no_schema : string := "
ERROR:

The validation schema file specified does not exist. Please check the
path and try again.
".

Definition msg_no_config : string := "
ERROR:

The configuration file specified does not exist. Please check the path
and try again.
".

Definition msg_bad_schema : string := "
ERROR:

The validation schema file specified could not be parsed. Please check
the contents of the file and try again.
".

Definition msg_bad_config : string := "
ERROR:

The configuration file specified could not be parsed. Please check the
contents of the file and try again.
".

Definition msg_traceback : string :=
  "The following traceback may provide more information:".

Definition msg_body_refs : string := "
ERROR:

The configuration file has mismatched ID and REF attributes. Please edit
the configuration file and make sure all <LegislativeBody> tags 
reference a <LegislativeBody> tag defined in the <LegislativeBodies>
section.
".

Definition msg_subject_refs : string := "
ERROR:

The configuration file has mismatched ID and REF attributes. Please edit
the configuration file and make sure all <Subject> tags reference a
<Subject> tag defined in the <Subjects> section.
".

(** The inner loop of lines 203-205 and 223-225: [found] after all
    [id_tags] were compared with [ref_tag]. *)
Definition found_in (id_tags : list element) (ref_tag : element) : bool :=
  fold_left
    (fun found id_tag =>
       found || bool_decide (get ref_tag "ref" = get id_tag "id"))
    id_tags false.

(** The outer loop: [false] stands for the [return False] taken at the
    first reference without a match. *)
Fixpoint check_refs (verbose : Z) (msg : string)
    (id_tags ref_tags : list element) : M bool :=
  match ref_tags with
  | [] => ret true
  | ref_tag :: rest =>
      if negb (found_in id_tags ref_tag) then
        (when (1 <? verbose) (print (Text msg)) ;; ret false)
      else check_refs verbose msg id_tags rest
  end.

(** The handler of both [except Exception, ex] clauses. *)
Definition parse_failed (verbose : Z) (msg : string) (ex : exn)
  : M (option element) :=
  when (0 <? verbose) (print (Text msg)) ;;
  when (1 <? verbose)
    (print (Text msg_traceback) ;; print (Traceback ex)) ;;
  ret None.

(** Lines 194-241: the references of both tag families are looked up
    among the identifiers. The result is [None] for Python's [False]
    and the tree otherwise. *)
Definition check_integrity (verbose : Z) (elem_tree : element)
  : M (option element) :=
  when (0 <? verbose) (print (Text "Configuration is parsed and validated.")) ;;
  ref_tags <- xpath_attr "LegislativeBody" "ref" elem_tree ;;
  id_tags <- xpath_attr "LegislativeBody" "id" elem_tree ;;
  ok <- check_refs verbose msg_body_refs id_tags ref_tags ;;
  if negb ok then ret None else
  ref_tags <- xpath_attr "Subject" "ref" elem_tree ;;
  id_tags <- xpath_attr "Subject" "id" elem_tree ;;
  ok <- check_refs verbose msg_subject_refs id_tags ref_tags ;;
  if negb ok then ret None else
  when (0 <? verbose) (print (Text "Document validated.")) ;;
  ret (Some elem_tree).

(** Lines 188-192 *)
Definition schema_failed (verbose : Z) (schema elem_tree : element)
  : M (option element) :=
  when (1 <? verbose)
    (print (Text "Configuration is parsed, but is not valid.") ;;
     print (SchemaError (xsd_last_error schema elem_tree))) ;;
  ret None.

(** Lines 133-192, then the integrity checks. *)
Definition validate_config (sch cfg : string) (verbose : Z)
  : M (option element) :=
  sch_exists <- exists_ sch ;;
  if negb sch_exists then
    (when (0 <? verbose) (print (Text msg_no_schema)) ;; ret None)
  else
  cfg_exists <- exists_ cfg ;;
  if negb cfg_exists then
    (when (0 <? verbose) (print (Text msg_no_config)) ;; ret None)
  else
  try_except (parse sch) (parse_failed verbose msg_bad_schema)
    (fun schdoc =>
  schema <- XMLSchema schdoc ;;
  try_except (parse cfg) (parse_failed verbose msg_bad_config)
    (fun elem_tree =>
  valid <- validate schema elem_tree ;;
  if negb valid then schema_failed verbose schema elem_tree
  else check_integrity verbose elem_tree)).

(** *** create_report_templates *)

(** [file(path)]: the path may be [None] when it comes from an absent
    attribute. *)
Definition file (path : option string) : M (string * string) :=
  match path with
  | None => raise TypeError
  | Some p => c <- open_r p ;; ret (p, c)
  end.

(** [parse(f)] for an open file. *)
Definition parse_file (f : string * string) : M element :=
  log (CParse f.1) ;;
  match xml_parse f.2 with
  | Some t => ret t
  | None => raise XMLSyntaxError
  end.

(** [XSLT(doc)]: the transform is represented by its document. *)
Definition XSLT (doc : element) : M element :=
  log CXSLT ;;
  if xslt_compile doc then ret doc else raise XSLTParseError.

(** [XSLT.strparam(v)] *)
Definition strparam (v : option string) : M string :=
  match v with
  | Some s => ret s
  | None => raise TypeError
  end.

(** [str(transform(tree, legislativebody = p))] *)
Definition apply_transform (transform tree : element) (p : string) : M string :=
  log (CTransform p) ;;
  match xslt_apply transform tree p with
  | Some r => ret r
  | None => raise XSLTApplyError
  end.

(** [v.lower()] for the result of an attribute lookup. *)
Definition attr_lower (v : option string) : M string :=
  match v with
  | Some s => ret (py_lower s)
  | None => raise AttributeError
  end.

Definition template_path (template_dir body_name : string) : string :=
  template_dir +:+ "/bard_" +:+ body_name +:+ ".html".

Definition create_report_templates (config : element)
    (xslt_path : option string) (template_dir : string) : M unit :=
  f <- file xslt_path ;;
  xml <- parse_file f ;;
  transform <- XSLT xml ;;
  bodies <- xpath ["DistrictBuilder"; "LegislativeBodies"; "LegislativeBody"] config ;;
  for_each bodies (fun body =>
    let body_id := get body "id" in
    body_name <- attr_lower (get body "name") ;;
    let path := template_path template_dir body_name in
    xslt_param <- strparam body_id ;;
    result <- apply_transform transform config xslt_param ;;
    open_w path ;;
    write path result).

(** *** merge_config *)

Definition settings_in : string := "settings.py.in".
Definition settings_out : string := "settings.py".

(** ['...%s...' % v] with the text before and after the directive. *)
Definition quoted (before : string) (v : option string) (after : string) : string :=
  before +:+ fmt_s v +:+ after.

(** [settings_out.write(text)] for a text formatted with attribute
    values. With a value that is not ASCII the text is a unicode
    object, and the write, which encodes it as ASCII, raises. The
    other parts of the text are ASCII. *)
Definition write_text (text : string) : M unit :=
  if is_ascii text then write settings_out text
  else raise UnicodeEncodeError.

(** [settings_out.write("KEY = '%s'\n" % v)] *)
Definition write_str (key : string) (v : option string) : M unit :=
  write_text (quoted (key +:+ " = '") v ("'" +:+ nl)).

(** [settings_out.write("KEY = %d\n" % int(v))] *)
Definition write_int (key : string) (v : pyval) : M unit :=
  n <- lift (py_int v) ;;
  write settings_out (key +:+ " = " +:+ fmt_d n +:+ nl).

(** Lines 251-257: both files are opened, then the template is copied
    line by line. *)
Definition copy_template : M unit :=
  text <- open_r settings_in ;;
  open_w settings_out ;;
  for_each (readlines text) (fun line => write settings_out line).

(** Lines 259-265 *)
Definition write_database (config : element) : M unit :=
  l <- xpath ["Project"; "Database"] config ;;
  cfg <- first l ;;
  write settings_out
    (nl +:+ "#" +:+ nl +:+ "# Automatically generated settings." +:+ nl
        +:+ "#" +:+ nl) ;;
  write settings_out ("DATABASE_ENGINE = 'postgresql_psycopg2'" +:+ nl) ;;
  write_str "DATABASE_NAME" (get cfg "name") ;;
  write_str "DATABASE_USER" (get cfg "user") ;;
  write_str "DATABASE_PASSWORD" (get cfg "password") ;;
  write_str "DATABASE_HOST" (Some (get_default cfg "host" EmptyString)).

(** Lines 267-275 *)
Definition write_mapserver (config : element) : M unit :=
  l <- xpath ["MapServer"] config ;;
  cfg <- first l ;;
  write_str (nl +:+ "MAP_SERVER") (get cfg "hostname") ;;
  let protocol := get cfg "protocol" in
  when (truthy (of_attr protocol)) (write_str "MAP_SERVER_PROTOCOL" protocol) ;;
  write_str "BASE_MAPS" (get cfg "basemaps") ;;
  write_str "MAP_SERVER_NS" (get cfg "ns") ;;
  write_str "MAP_SERVER_NSHREF" (get cfg "nshref") ;;
  write_int "FEATURE_LIMIT" (of_attr (get cfg "maxfeatures")).

(** Lines 277-279 *)
Definition write_admin (config : element) : M unit :=
  l <- xpath ["Admin"] config ;;
  cfg <- first l ;;
  write_text
    (nl +:+ "ADMINS = (" +:+ nl +:+ "  ('" +:+ fmt_s (get cfg "user") +:+ "',"
        +:+ nl +:+ "  '" +:+ fmt_s (get cfg "email") +:+ "')," +:+ nl +:+ ")") ;;
  write settings_out (nl +:+ "MANAGERS = ADMINS" +:+ nl).

(** Lines 281-286 *)
Definition write_mailer (config : element) : M unit :=
  l <- xpath ["Mailer"] config ;;
  cfg <- first l ;;
  write_str (nl +:+ "EMAIL_HOST") (get cfg "server") ;;
  write_int "EMAIL_PORT" (of_attr (get cfg "port")) ;;
  write_str "EMAIL_HOST_USER" (get cfg "username") ;;
  write_str "EMAIL_HOST_PASSWORD" (get cfg "password") ;;
  write_text
    (quoted "EMAIL_SUBJECT_PREFIX = '" (get cfg "prefix") (" '" +:+ nl)).

Definition secret_chars : string :=
  "abcdefghijklmnopqrstuvwxyz0123456789!@#$%^&*(-_=+)".

(** [[random.choice(seq) for i in range(n)]] joined *)
Fixpoint choices (seq : string) (n : nat) : M string :=
  match n with
  | O => ret EmptyString
  | S n' => c <- choice seq ;; s <- choices seq n' ;; ret (String c s)
  end.

Definition secret_line (key : string) : string :=
  nl +:+ "SECRET_KEY = '" +:+ key +:+ "'" +:+ nl.

(** Line 288 *)
Definition write_secret : M unit :=
  key <- choices secret_chars 50 ;;
  write settings_out (secret_line key).

(** Lines 290-306; the [Project] element and [root_dir] are used
    further down. *)
Definition write_project (config : element) : M (element * option string) :=
  l <- xpath ["Project"] config ;;
  cfg <- first l ;;
  let root_dir := get cfg "root" in
  write_text
    (quoted (nl +:+ "MEDIA_ROOT = '") root_dir
            ("/django/publicmapping/site-media/'" +:+ nl)) ;;
  write_text
    (quoted (nl +:+ "STATIC_ROOT = '") root_dir
            ("/django/publicmapping/static-media/'" +:+ nl)) ;;
  write_text
    (quoted (nl +:+ "TEMPLATE_DIRS = (" +:+ nl +:+ "  '") root_dir
            ("/django/publicmapping/templates'," +:+ nl +:+ ")" +:+ nl)) ;;
  write_text (quoted (nl +:+ "SLD_ROOT = '") root_dir ("/sld/'" +:+ nl)) ;;
  let quota := of_attr (get cfg "sessionquota") in
  let quota := if negb (truthy quota) then PInt 5 else quota in
  write_int (nl +:+ "CONCURRENT_SESSIONS") quota ;;
  let timeout := of_attr (get cfg "sessiontimeout") in
  let timeout := if negb (truthy timeout) then PInt 15 else timeout in
  write_int (nl +:+ "SESSION_TIMEOUT") timeout ;;
  ret (cfg, root_dir).

(** The names bound at module level: the imports and the four
    functions. *)
Definition module_globals : list string :=
  ["Decimal"; "OptionParser"; "OptionGroup"; "exists"; "parse";
   "XMLSchema"; "XSLT"; "minidom"; "traceback"; "os"; "sys"; "random";
   "main"; "validate_config"; "merge_config"; "create_report_templates"].

(** Reading a name that the function never assigns: it is looked up
    among the module's globals, then the builtins. Python 2 has no
    builtin of the name read here, and the names that every module
    has start with two underscores. The globals are modules, classes
    and functions, which are all true. *)
Definition load_global (name : string) : M bool :=
  if bool_decide (name ∈ module_globals) then ret true
  else raise NameError.

(** Lines 310-312: the attribute is bound to [banner], the test reads
    [bannerimage]. *)
Definition write_banner (cfg : element) : M unit :=
  let banner := get cfg "bannerimage" in
  bannerimage <- load_global "bannerimage" ;;
  when bannerimage (write_str (nl +:+ "BANNER_IMAGE") banner).

(** Lines 314-323 *)
Definition write_reporting (config : element) (root_dir : option string) : M unit :=
  l <- xpath ["Reporting"] config ;;
  cfg <- first l ;;
  match find2 "BardConfigs" "BardConfig" cfg with
  | Some cfg =>
      write settings_out (nl +:+ "REPORTS_ENABLED = True" +:+ nl) ;;
      write_str (nl +:+ "BARD_BASESHAPE") (get cfg "shape") ;;
      write_str "BARD_TEMP" (get cfg "temp") ;;
      let xslt := get cfg "transform" in
      create_report_templates config xslt
        (fmt_s root_dir +:+ "/django/publicmapping/redistricting/templates")
  | None =>
      write settings_out (nl +:+ "REPORTS_ENABLED = False" +:+ nl)
  end.

(** Lines 326-332 *)
Definition write_analytics (config : element) : M unit :=
  cfg <- xpath ["GoogleAnalytics"] config ;;
  match cfg with
  | cfg :: _ =>
      write_str (nl +:+ "GA_ACCOUNT") (get cfg "account") ;;
      write_str "GA_DOMAIN" (get cfg "domain")
  | [] =>
      write settings_out
        (nl +:+ "GA_ACCOUNT = None" +:+ nl +:+ "GA_DOMAIN = None" +:+ nl)
  end.

(** Lines 334-339 *)
Definition write_upload (config : element) : M unit :=
  cfg <- xpath ["Upload"] config ;;
  match cfg with
  | cfg :: _ =>
      write_text
        (quoted (nl +:+ "MAX_UPLOAD_SIZE = ") (get cfg "maxsize")
                (" * 1024" +:+ nl))
  | [] => write settings_out (nl +:+ "MAX_UPLOAD_SIZE = 5000 * 1024" +:+ nl)
  end.

(** Lines 341-350 *)
Definition write_undos (config : element) : M unit :=
  cfg <- xpath ["MaxUndos"] config ;;
  let '(maxundosduringedit, maxundosafteredit) :=
    match cfg with
    | cfg :: _ =>
        (py_or (of_attr (get cfg "duringedit")) (PInt 0),
         py_or (of_attr (get cfg "afteredit")) (PInt 0))
    | [] => (PInt 0, PInt 0)
    end in
  write_int (nl +:+ "MAX_UNDOS_DURING_EDIT") maxundosduringedit ;;
  write_int (nl +:+ "MAX_UNDOS_AFTER_EDIT") maxundosafteredit.

(** Lines 352-358 *)
Definition write_leaderboard (config : element) : M unit :=
  cfg <- xpath ["Leaderboard"] config ;;
  let maxranked :=
    match cfg with
    | cfg :: _ => py_or (of_attr (get cfg "maxranked")) (PInt 10)
    | [] => PInt 10
    end in
  write_int (nl +:+ "LEADERBOARD_MAX_RANKED") maxranked.

(** Lines 251-306: everything before the banner test. *)
Definition merge_head (config : element) : M (element * option string) :=
  copy_template ;;
  write_database config ;;
  write_mapserver config ;;
  write_admin config ;;
  write_mailer config ;;
  write_secret ;;
  write_project config.

(** Lines 314-360: everything after it. Closing the file changes
    nothing in the model, where a write reaches the file at once. *)
Definition merge_tail (config : element) (root_dir : option string) : M unit :=
  write_reporting config root_dir ;;
  write_analytics config ;;
  write_upload config ;;
  write_undos config ;;
  write_leaderboard config.

(** The body of the [try]. *)
Definition merge_body (config : element) : M unit :=
  p <- merge_head config ;;
  write_banner p.1 ;;
  merge_tail config p.2.

Definition msg_not_written : string := "
ERROR:

    The database settings could not be written. Please check the 
    permissions of the django directory and settings.py and try again.
".

(** Lines 361-371: the handler of [except Exception, ex]. *)
Definition settings_failed (verbose : Z) (ex : exn) : M bool :=
  when (0 <? verbose) (print (Text msg_not_written)) ;;
  when (1 <? verbose) (print (Traceback ex)) ;;
  ret false.

Definition merge_config (config : element) (verbose : Z) : M bool :=
  try_except (merge_body config) (settings_failed verbose) (fun _ => ret true).

End Script.

(** ** Sample documents and a small lxml

    The documents are given as trees; the sample parser recognises the
    text of each by name. *)
Module Sample.

Definition schema_doc : element := Element "xs:schema" [] [].

Definition bodies : element :=
  Element "LegislativeBodies" []
    [Element "LegislativeBody" [("id", "congress"); ("name", "Congressional")] [];
     Element "LegislativeBody" [("id", "senate"); ("name", "State Senate")] []].

Definition subjects : element :=
  Element "Subjects" []
    [Element "Subject" [("id", "poptot"); ("name", "Total Population")] [];
     Element "Subject" [("id", "popblk"); ("ref", "poptot")] []].

Definition geolevels : element :=
  Element "GeoLevels" []
    [Element "GeoLevel" [("id", "county")]
       [Element "LegislativeBody" [("ref", "congress")] [];
        Element "LegislativeBody" [("ref", "senate")] []]].

Definition bard : element :=
  Element "BardConfigs" []
    [Element "BardConfig"
       [("id", "blocks"); ("shape", "/data/blocks.shp"); ("temp", "/tmp");
        ("transform", "/data/bard_template.xslt")] []].

Definition project (reporting : list element) : element :=
  Element "Project" [("root", "/projects/publicmapping")]
    [Element "Database" [("name", "publicmapping"); ("user", "pm"); ("password", "pw")] [];
     Element "MapServer"
       [("hostname", "maps.example.org"); ("basemaps", "osm"); ("ns", "gmu");
        ("nshref", "http://example.org/gmu"); ("maxfeatures", "100")] [];
     Element "Admin" [("user", "admin"); ("email", "admin@example.org")] [];
     Element "Mailer"
       [("server", "localhost"); ("port", "25"); ("username", "mailer");
        ("password", "pw"); ("prefix", "[PM]")] [];
     Element "Reporting" [] reporting].

(** No [BardConfig], no [Upload], [MaxUndos] or [Leaderboard], and no
    [sessionquota] or [sessiontimeout]. *)
Definition config_plain : element :=
  Element "DistrictBuilder" [] [bodies; subjects; geolevels; project []].

Definition config_bard : element :=
  Element "DistrictBuilder" [] [bodies; subjects; geolevels; project [bard]].

(** A reference to a body that is defined nowhere. *)
Definition config_dangling : element :=
  Element "DistrictBuilder" []
    [bodies; subjects;
     Element "GeoLevels" [] [Element "LegislativeBody" [("ref", "house")] []];
     project []].

(** A body that is its own definition, and an identifier that sits
    outside the [LegislativeBodies] section. *)
Definition config_selfref : element :=
  Element "DistrictBuilder" []
    [Element "LegislativeBodies" []
       [Element "LegislativeBody" [("ref", "council"); ("id", "council")] [];
        Element "LegislativeBody" [("ref", "board")] []];
     Element "GeoLevels" [] [Element "LegislativeBody" [("id", "board")] []];
     project []].

(** Not what the sample schema asks for. *)
Definition config_invalid : element := Element "Settings" [] [].

Definition documents : list (string * element) :=
  [("schema.xsd", schema_doc); ("plain.xml", config_plain);
   ("bard.xml", config_bard); ("dangling.xml", config_dangling);
   ("selfref.xml", config_selfref); ("invalid.xml", config_invalid);
   ("bard_template.xslt", Element "xsl:stylesheet" [] [])].

Fixpoint lookup_doc (text : string) (l : list (string * element)) : option element :=
  match l with
  | [] => None
  | (k, d) :: l' => if String.eqb text k then Some d else lookup_doc text l'
  end.

(** The text of a sample file is the name of its document; any other
    text is not well-formed. The sample schema asks for a
    [DistrictBuilder] root. *)
#[export] Instance lxml : Lxml := {|
  xml_parse text := lookup_doc text documents;
  xsd_compile doc := String.eqb (tag doc) "xs:schema";
  xsd_validate _ tree := String.eqb (tag tree) "DistrictBuilder";
  xsd_last_error _ tree := "Element '" +:+ tag tree +:+ "': not expected.";
  xslt_compile doc := String.eqb (tag doc) "xsl:stylesheet";
  xslt_apply _ _ p := Some ("<div id='" +:+ p +:+ "'/>");
|}.

(** The sample documents are ASCII; the sample table leaves the other
    characters alone. *)
#[export] Instance unicode : Unicode :=
  {| unicode_lower := lower; unicode_int := fun _ => Raise ValueError |}.

Definition fs : gmap string fnode :=
  list_to_map
    [("settings.py.in", Regular ("DEBUG = True" +:+ nl));
     ("schema.xsd", Regular "schema.xsd");
     ("plain.xml", Regular "plain.xml");
     ("bard.xml", Regular "bard.xml");
     ("dangling.xml", Regular "dangling.xml");
     ("selfref.xml", Regular "selfref.xml");
     ("invalid.xml", Regular "invalid.xml");
     ("broken.xml", Regular "<DistrictBuilder>");
     ("/data/bard_template.xslt", Regular "bard_template.xslt")].

Definition templates : string :=
  "/projects/publicmapping/django/publicmapping/redistricting/templates".

(** The working directory and the template directory are writable. *)
Definition world0 : world :=
  World fs {[ EmptyString; templates ]} [] [] (fun i => (7 * i + 3)%nat) 0.



(** The template directory is not writable. *)
Definition world_readonly : world :=
  World fs {[ EmptyString ]} [] [] (fun i => i) 0.

Definition xslt : option string := Some "/data/bard_template.xslt".
Definition root : option string := Some "/projects/publicmapping".

(** Two bodies of [config_selfref] and the identifier of the second. *)
Definition council : element :=
  Element "LegislativeBody" [("ref", "council"); ("id", "council")] [].
Definition board_ref : element := Element "LegislativeBody" [("ref", "board")] [].
Definition board_id : element := Element "LegislativeBody" [("id", "board")] [].

End Sample.

(** ** main *)

(** The options as [OptionParser.parse_args] returns them: an option
    with [action='append'] that was not given is [None]. *)
Record options := Options {
  database : bool;
  geolevels : option (list Z);
  views : bool;
  geoserver : bool;
  templates : bool;
  nesting : option (list Z);
  bard : bool;
  verbosity : Z;
}.

(** The calls of [management.call_command]. *)
Inductive command :=
  | Syncdb
  | Setup (config : string) (verbosity : Z) (geolevels : option (list Z))
          (views geoserver templates : bool) (nesting : option (list Z))
          (bard : bool).

(** What the lines 100-124 do once the settings are generated: the
    settings module put in the environment, the entries added to
    [sys.path] and the commands called, in their order. What the
    commands do is Django's. *)
Record launch := Launch {
  settings_module : string;
  path_added : list string;
  commands : list command;
}.

(** [not l] for [None] or a list *)
Definition no_list (l : option (list Z)) : bool :=
  match l with
  | None | Some [] => true
  | Some (_ :: _) => false
  end.

(** Line 72 *)
Definition allops (o : options) : bool :=
  negb (database o) && no_list (geolevels o) && negb (views o)
  && negb (geoserver o) && negb (templates o) && no_list (nesting o)
  && negb (bard o).

(** Lines 100-124 *)
Definition start (o : options) (config : string) : launch :=
  Launch "publicmapping.settings" ["."; ".."]
    ((if allops o || database o then [Syncdb] else [])
     ++ [if allops o
         then Setup config (verbosity o) (Some []) true true true (Some []) true
         else Setup config (verbosity o) (geolevels o) (views o) (geoserver o)
                (templates o) (nesting o) (bard o)]).

Definition msg_usage : string := "
ERROR:

    This script requires a configuration file and a schema. Please check
    the command line arguments and try again.
".

Section Main.
Context `{Lxml} {unicode_tables : Unicode}.

(** Lines 70-126, from the parsed options and arguments on. The result
    is [None] when [main] returns before line 100. *)
Definition main (o : options) (args : list string) : M (option launch) :=
  let verbose := verbosity o in
  match args with
  | [sch; cfg] =>
      config <- validate_config sch cfg verbose ;;
      match config with
      | None => ret None
      | Some config =>
          when (0 <? verbose) (print (Text "Validated config.")) ;;
          generated <- merge_config config verbose ;;
          if generated then
            (when (0 <? verbose) (print (Text "Generated django settings.")) ;;
             ret (Some (start o cfg)))
          else ret None
      end
  | _ =>
      when (0 <? verbose) (print (Text msg_usage)) ;; ret None
  end.

End Main.

(** ** Further sample documents *)
Module Cases.

(** Two bodies whose names differ in letter case only. *)
Definition config_twins : element :=
  Element "DistrictBuilder" []
    [Element "LegislativeBodies" []
       [Element "LegislativeBody" [("id", "upper"); ("name", "Senate")] [];
        Element "LegislativeBody" [("id", "lower"); ("name", "SENATE")] []]].

(** The second body has no name. *)
Definition config_nameless : element :=
  Element "DistrictBuilder" []
    [Element "LegislativeBodies" []
       [Element "LegislativeBody" [("id", "congress"); ("name", "Congressional")] [];
        Element "LegislativeBody" [("id", "senate")] [];
        Element "LegislativeBody" [("id", "house"); ("name", "House")] []]].

(** A [Database] and a [MapServer] without attributes. *)
Definition config_bare : element :=
  Element "DistrictBuilder" []
    [Element "Project" []
       [Element "Database" [] []; Element "MapServer" [] []]].



(** A database name that is not ASCII. *)
Definition config_accent : element :=
  Element "DistrictBuilder" []
    [Element "Project" []
       [Element "Database" [("name", "cartes-publiques-é"); ("user", "pm")] []]].


Definition stylesheet_doc : element := Element "xsl:stylesheet" [] [].

(** No phase is asked for. *)
Definition opts (verbose : Z) : options :=
  Options false None false false false None false verbose.

End Cases.

(** ** Notions used in the statements *)

(** The check of lines 199-217 (and 219-236) as one boolean. *)
Definition resolved (t : string) (doc : element) : bool :=
  forallb (found_in (select_attr t "id" doc)) (select_attr t "ref" doc).

(** Every reference of tag [t] has an identifier of tag [t] somewhere
    in the document. *)
Definition refs_resolved (t : string) (doc : element) : Prop :=
  ∀ e r, e ∈ iter doc → tag e = t → get e "ref" = Some r →
    ∃ e', e' ∈ iter doc ∧ tag e' = t ∧ get e' "id" = Some r.

(** Whether the settings file holds the line [l]. *)
Definition settings_has (l : string) (w : world) : bool :=
  match content_of settings_out w with
  | Some text => has_line l text
  | None => false
  end.

Definition logged (l : list call) (w : world) : world :=
  World (files w) (wdirs w) (stdout w) (calls w ++ l) (rng w) (drawn w).

Definition printed (l : list output) (w : world) : world :=
  World (files w) (wdirs w) (stdout w ++ l) (calls w) (rng w) (drawn w).


Definition parse_failed_output (verbose : Z) (msg : string) (ex : exn) : list output :=
  (if 0 <? verbose then [Text msg] else [])
  ++ if 1 <? verbose then [Text msg_traceback; Traceback ex] else [].

Definition schema_failed_output (verbose : Z) (detail : string) : list output :=
  if 1 <? verbose
  then [Text "Configuration is parsed, but is not valid."; SchemaError detail]
  else [].

Definition progress_line : output :=
  Text "Configuration is parsed and validated.".

Definition integrity_output (verbose : Z) (doc : element) : list output :=
  (if 0 <? verbose then [progress_line] else [])
  ++ if resolved "LegislativeBody" doc then
       if resolved "Subject" doc then
         if 0 <? verbose then [Text "Document validated."] else []
       else if 1 <? verbose then [Text msg_subject_refs] else []
     else if 1 <? verbose then [Text msg_body_refs] else [].

Definition integrity_calls (doc : element) : list call :=
  [CXPath "//LegislativeBody[@ref]"; CXPath "//LegislativeBody[@id]"]
  ++ if resolved "LegislativeBody" doc
     then [CXPath "//Subject[@ref]"; CXPath "//Subject[@id]"] else [].



Definition bodies_path : list string :=
  ["DistrictBuilder"; "LegislativeBodies"; "LegislativeBody"].




Definition after {A} (r : result A) (s : bool) : bool :=
  match r with Ok _ => s | Raise _ => false end.


(** The attribute [k] of [e] is absent or ASCII: lxml returns [None] or
    a byte string for it. *)
Definition ascii_attr (e : element) (k : string) : bool :=
  match get e k with
  | Some s => is_ascii s
  | None => true
  end.


Section Situations.
Context `{Lxml} {unicode_tables : Unicode}.

(** What [parse(p)] gives in world [w]. *)
Definition read_doc (p : string) (w : world) : result element :=
  match files w !! p with
  | Some (Regular c) =>
      match xml_parse c with
      | Some t => Ok t
      | None => Raise XMLSyntaxError
      end
  | _ => Raise IOError
  end.

(** Both files parse, the schema compiles and accepts the document
    [tree] of [cfg]. *)
Definition schema_valid (sch cfg : string) (w : world) (tree : element) : Prop :=
  ∃ schdoc, read_doc sch w = Ok schdoc ∧ xsd_compile schdoc = true ∧
            read_doc cfg w = Ok tree ∧ xsd_validate schdoc tree = true.


End Situations.

(** ** Notions used in the further properties *)

(** [m] prints nothing, leaves the directories alone and touches no
    file but the settings file. *)
Definition settings_only {A} (m : M A) : Prop :=
  ∀ w, wdirs (m w).2 = wdirs w ∧ stdout (m w).2 = stdout w
       ∧ ∀ p, p ≠ settings_out → files (m w).2 !! p = files w !! p.

(** What the handler of [merge_config] prints. *)
Definition settings_failed_output (verbose : Z) (ex : exn) : list output :=
  (if 0 <? verbose then [Text msg_not_written] else [])
  ++ if 1 <? verbose then [Traceback ex] else [].

(** What lines 260-265 write for a [Database] without attributes. *)
Definition database_without_attributes : string :=
  nl +:+ "#" +:+ nl +:+ "# Automatically generated settings." +:+ nl
     +:+ "#" +:+ nl
     +:+ "DATABASE_ENGINE = 'postgresql_psycopg2'" +:+ nl
     +:+ "DATABASE_NAME = 'None'" +:+ nl
     +:+ "DATABASE_USER = 'None'" +:+ nl
     +:+ "DATABASE_PASSWORD = 'None'" +:+ nl
     +:+ "DATABASE_HOST = ''" +:+ nl.

(** What lines 260-261 write. *)
Definition database_header : string :=
  nl +:+ "#" +:+ nl +:+ "# Automatically generated settings." +:+ nl
     +:+ "#" +:+ nl
     +:+ "DATABASE_ENGINE = 'postgresql_psycopg2'" +:+ nl.

(** Whether [open(p, 'w')] succeeds in [w]. *)
Definition creatable (w : world) (p : string) : bool :=
  match files w !! p with
  | Some (Regular _) => true
  | Some Locked => false
  | None => bool_decide (dirname p ∈ wdirs w)
  end.

(** The files after the pages, each a path and a text, were written
    one after the other. *)
Fixpoint put_pages (pages : list (string * string)) (f : gmap string fnode)
  : gmap string fnode :=
  match pages with
  | [] => f
  | (p, html) :: rest => put_pages rest (<[p := Regular html]> f)
  end.


(** The lxml calls of lines 382-389. *)
Definition report_calls (xp : string) : list call :=
  [CParse xp; CXSLT; CXPath "//DistrictBuilder/LegislativeBodies/LegislativeBody"].

Section Pages.
Context `{Lxml} {unicode_tables : Unicode}.

(** The page of a body: the path of its template and the text that
    the transform gives for its id. *)
Definition page (transform config : element) (dir : string) (body : element)
  : option (string * string) :=
  match get body "name", get body "id" with
  | Some name, Some id =>
      match xslt_apply transform config id with
      | Some html => Some (template_path dir (py_lower name), html)
      | None => None
      end
  | _, _ => None
  end.

(** The XSLT file at [xp] is read, parsed and accepted as [transform]. *)
Definition stylesheet (xp : string) (w : world) (transform : element) : Prop :=
  ∃ c, files w !! xp = Some (Regular c) ∧ xml_parse c = Some transform
       ∧ xslt_compile transform = true.

(** The body of the loop of lines 390-400. *)
Definition template_step (transform config : element) (dir : string)
    (body : element) : M unit :=
  let body_id := get body "id" in
  body_name <- attr_lower (get body "name") ;;
  let path := template_path dir body_name in
  xslt_param <- strparam body_id ;;
  result <- apply_transform transform config xslt_param ;;
  open_w path ;;
  write path result.


End Pages.


(** ** Strings and lists of characters *)

Lemma string_app_assoc (a b c : string) : (a +:+ b) +:+ c = a +:+ b +:+ c.
Proof.
  induction a as [| x a IH]; [done |].
  change (String x ((a +:+ b) +:+ c) = String x (a +:+ b +:+ c)).
  by rewrite IH.
Qed.

Lemma string_app_nil_r (a : string) : a +:+ EmptyString = a.
Proof.
  induction a as [| x a IH]; [done |].
  change (String x (a +:+ EmptyString) = String x a). by rewrite IH.
Qed.

Lemma is_ascii_app (a b : string) :
  is_ascii (a +:+ b) = is_ascii a && is_ascii b.
Proof.
  induction a as [| x a IH]; [done |].
  change (is_ascii (String x (a +:+ b)) = is_ascii (String x a) && is_ascii b).
  unfold is_ascii in *. simpl. rewrite IH. by destruct (_ <? _)%nat.
Qed.

Lemma is_ascii_fmt_s (v : option string) :
  (∀ s, v = Some s → is_ascii s = true) → is_ascii (fmt_s v) = true.
Proof. destruct v as [s |]; [intros Hv; by apply Hv | done]. Qed.

Lemma is_ascii_quoted (before after : string) (v : option string) :
  is_ascii before = true → is_ascii after = true →
  (∀ s, v = Some s → is_ascii s = true) →
  is_ascii (quoted before v after) = true.
Proof.
  intros Hb Ha Hv. unfold quoted.
  by rewrite !is_ascii_app, Hb, Ha, is_ascii_fmt_s.
Qed.

Lemma write_text_ascii (text : string) :
  is_ascii text = true → write_text text = write settings_out text.
Proof. unfold write_text. by intros ->. Qed.

Lemma ascii_attr_spec (e : element) (k : string) :
  ascii_attr e k = true → ∀ s, get e k = Some s → is_ascii s = true.
Proof. unfold ascii_attr. intros Ha s Hs. by rewrite Hs in Ha. Qed.







(** The template is copied whole. *)
Lemma readlines_concat (s : string) : String.concat EmptyString (readlines s) = s.
Proof.
  induction s as [| c s IH]; [done |]. simpl.
  destruct (Ascii.eqb_spec c newline) as [-> | Hc].
  - destruct (readlines s) as [| l ls] eqn:E; simpl in *.
    + by rewrite <- IH.
    + by rewrite IH.
  - destruct (readlines s) as [| l ls] eqn:E; simpl in *.
    + by rewrite <- IH.
    + destruct ls as [| l' ls']; simpl in *; rewrite <- IH; [done |].
      symmetry. apply (string_app_assoc (String c EmptyString) l).
Qed.

(** ** Looking elements up *)

Lemma elem_of_select_tag (t : string) (doc e : element) :
  e ∈ select [t] doc ↔ e ∈ iter doc ∧ tag e = t.
Proof.
  unfold select, iter. rewrite !list_elem_of_fmap. split.
  - intros [n [-> Hn]]. apply list_elem_of_filter in Hn as [Hp Hn].
    unfold on_path in Hp. simpl in Hp.
    apply andb_true_iff in Hp as [Hp _]. apply String.eqb_eq in Hp.
    split; [by exists n | done].
  - intros [[n [-> Hn]] Ht]. exists n. split; [done |].
    apply list_elem_of_filter. split; [| done].
    unfold on_path. simpl. rewrite Ht, String.eqb_refl. done.
Qed.

Lemma elem_of_select_attr (t k : string) (doc e : element) :
  e ∈ select_attr t k doc ↔ e ∈ iter doc ∧ tag e = t ∧ is_Some (get e k).
Proof.
  unfold select_attr. rewrite list_elem_of_filter, elem_of_select_tag.
  unfold has_attr. destruct (get e k) as [v |].
  - split; [intros [_ [? ?]]; eauto | intros [? [? _]]; eauto].
  - split; [intros [? _]; done | intros [_ [_ [? ?]]]; done].
Qed.

Lemma found_in_from (ids : list element) (r : element) (acc : bool) :
  fold_left
    (fun found id_tag => found || bool_decide (get r "ref" = get id_tag "id"))
    ids acc = true
  ↔ acc = true ∨ ∃ i, i ∈ ids ∧ get r "ref" = get i "id".
Proof.
  revert acc. induction ids as [| i ids IH]; intros acc; simpl.
  - split; [auto | intros [? | [i [Hi _]]]; [done | by apply elem_of_nil in Hi]].
  - rewrite IH, orb_true_iff, bool_decide_eq_true. split.
    + intros [[? | ?] | [j [? ?]]]; [by left | right; exists i | right; exists j];
        (split; [apply elem_of_cons; auto | done]).
    + intros [? | [j [Hj ?]]]; [by left; left |].
      apply elem_of_cons in Hj as [-> | Hj]; [left; by right | right; by exists j].
Qed.

Lemma found_in_spec (ids : list element) (r : element) :
  found_in ids r = true ↔ ∃ i, i ∈ ids ∧ get r "ref" = get i "id".
Proof.
  unfold found_in. rewrite found_in_from. split; [intros [? | ?]; done | auto].
Qed.

Lemma resolved_spec (t : string) (doc : element) :
  resolved t doc = true ↔ refs_resolved t doc.
Proof.
  unfold resolved, refs_resolved. rewrite forallb_forall. split.
  - intros Hall e r He Ht Hr.
    assert (Hin : e ∈ select_attr t "ref" doc).
    { apply elem_of_select_attr. rewrite Hr. eauto. }
    apply list_elem_of_In, Hall, found_in_spec in Hin as [i [Hi Heq]].
    apply elem_of_select_attr in Hi as [Hi [Hti _]].
    exists i. rewrite <- Heq. done.
  - intros Hres e He. apply list_elem_of_In, elem_of_select_attr in He
      as [He [Ht [r Hr]]].
    destruct (Hres e r He Ht Hr) as [i [Hi [Hti Hid]]].
    apply found_in_spec. exists i. split; [| congruence].
    apply elem_of_select_attr. rewrite Hid. eauto.
Qed.

(** The check asks for an identifier on an element of the same tag,
    wherever it sits in the document. *)
Lemma resolved_anywhere (t : string) (doc : element) :
  resolved t doc = true
  ↔ ∀ ref_tag, ref_tag ∈ select_attr t "ref" doc →
      ∃ anc id_tag, (anc, id_tag) ∈ walk [] doc ∧ tag id_tag = t
                    ∧ get id_tag "id" = get ref_tag "ref".
Proof.
  unfold resolved. rewrite forallb_forall. split.
  - intros Hall r Hr. apply list_elem_of_In, Hall, found_in_spec in Hr
      as (i & Hi & Heq).
    apply elem_of_select_attr in Hi as (Hi & Hti & _).
    unfold iter in Hi. apply list_elem_of_fmap in Hi as ([anc i'] & -> & Hi).
    exists anc, i'. done.
  - intros Hall r Hr. apply list_elem_of_In in Hr.
    destruct (Hall r Hr) as (anc & i & Hi & Hti & Hid).
    apply elem_of_select_attr in Hr as (_ & _ & [v Hv]).
    apply found_in_spec. exists i. split; [| done].
    apply elem_of_select_attr. split; [| split; [done |]].
    + unfold iter. apply list_elem_of_fmap. by exists (anc, i).
    + rewrite Hid, Hv. eauto.
Qed.

(** An element whose [id] equals its own [ref] asks for nothing more. *)
Lemma resolved_but_self (t : string) (doc : element) :
  resolved t doc = true
  ↔ ∀ ref_tag, ref_tag ∈ select_attr t "ref" doc →
      get ref_tag "id" ≠ get ref_tag "ref" →
      ∃ anc id_tag, (anc, id_tag) ∈ walk [] doc ∧ tag id_tag = t
                    ∧ get id_tag "id" = get ref_tag "ref".
Proof.
  rewrite resolved_anywhere. split; [intros Hall r Hr _; by apply Hall |].
  intros Hall r Hr. destruct (decide (get r "id" = get r "ref")) as [Hself | Hne];
    [| by apply Hall].
  apply elem_of_select_attr in Hr as (Hi & Ht & _).
  unfold iter in Hi. apply list_elem_of_fmap in Hi as ([anc r'] & -> & Hi).
  exists anc, r'. done.
Qed.

(** ** Runs of validate_config *)




Section Validation.
Context `{Lxml} {unicode_tables : Unicode}.

Lemma check_refs_run (verbose : Z) (msg : string) (ids refs : list element)
    (w : world) :
  check_refs verbose msg ids refs w =
    (Ok (forallb (found_in ids) refs),
     if forallb (found_in ids) refs then w
     else if 1 <? verbose then add_stdout (Text msg) w else w).
Proof.
  induction refs as [| r refs IH]; simpl; [done |].
  destruct (found_in ids r); simpl; [done |].
  unfold bind, when. destruct (1 <? verbose); done.
Qed.

Lemma check_integrity_run (verbose : Z) (doc : element) (w : world) :
  check_integrity verbose doc w =
    (Ok (if resolved "LegislativeBody" doc && resolved "Subject" doc
         then Some doc else None),
     printed (integrity_output verbose doc) (logged (integrity_calls doc) w)).
Proof.
  unfold check_integrity, integrity_output, integrity_calls, progress_line.
  unfold xpath_attr, bind, resolved, printed, logged.
  destruct w as [f d o c r n].
  destruct (0 <? verbose) eqn:H0, (1 <? verbose) eqn:H1; simpl;
    rewrite !check_refs_run; simpl;
    destruct (forallb _ (select_attr "LegislativeBody" "ref" doc)); simpl;
    rewrite ?check_refs_run, ?H0, ?H1; simpl;
    try destruct (forallb _ (select_attr "Subject" "ref" doc)); simpl;
    rewrite ?H0, ?H1; unfold add_stdout, add_call, ret; simpl;
    rewrite <- ?app_assoc, ?app_nil_r; simpl; reflexivity.
Qed.

Lemma parse_run (p : string) (w : world) :
  parse p w = (read_doc p w, logged [CParse p] w).
Proof.
  unfold parse, read_doc, bind, log, open_r. simpl.
  destruct (files w !! p) as [[c |] |]; try done.
  destruct (xml_parse c); done.
Qed.

Lemma read_doc_logged (p : string) (l : list call) (w : world) :
  read_doc p (logged l w) = read_doc p w.
Proof. done. Qed.

Lemma read_doc_exists (p : string) (w : world) (t : element) :
  read_doc p w = Ok t → is_Some (files w !! p).
Proof. unfold read_doc. destruct (files w !! p); [eauto | done]. Qed.

Lemma parse_failed_run (verbose : Z) (msg : string) (ex : exn) (w : world) :
  parse_failed verbose msg ex w =
    (Ok None, printed (parse_failed_output verbose msg ex) w).
Proof.
  unfold parse_failed, parse_failed_output, printed, bind, when.
  destruct w. destruct (0 <? verbose), (1 <? verbose); simpl;
    unfold add_stdout; simpl; rewrite <- ?app_assoc, ?app_nil_r; done.
Qed.

Lemma schema_failed_run (verbose : Z) (schema tree : element) (w : world) :
  schema_failed verbose schema tree w =
    (Ok None,
     printed (schema_failed_output verbose (xsd_last_error schema tree)) w).
Proof.
  unfold schema_failed, schema_failed_output, printed, bind, when.
  destruct w. destruct (1 <? verbose); simpl;
    unfold add_stdout; simpl; rewrite <- ?app_assoc, ?app_nil_r; done.
Qed.

Lemma validate_config_no_schema sch cfg verbose w :
  files w !! sch = None →
  validate_config sch cfg verbose w =
    (Ok None, printed (if 0 <? verbose then [Text msg_no_schema] else []) w).
Proof.
  intros Hs. unfold validate_config, bind, exists_. rewrite Hs.
  rewrite bool_decide_eq_false_2 by (intros [? ?]; done). simpl.
  unfold when, printed. destruct w, (0 <? verbose); simpl; rewrite ?app_nil_r; done.
Qed.

Lemma validate_config_no_config sch cfg verbose w :
  is_Some (files w !! sch) → files w !! cfg = None →
  validate_config sch cfg verbose w =
    (Ok None, printed (if 0 <? verbose then [Text msg_no_config] else []) w).
Proof.
  intros Hs Hc. unfold validate_config, bind, exists_.
  rewrite bool_decide_eq_true_2 by done. simpl. rewrite Hc.
  rewrite bool_decide_eq_false_2 by (intros [? ?]; done). simpl.
  unfold when, printed. destruct w, (0 <? verbose); simpl; rewrite ?app_nil_r; done.
Qed.

(** Both files exist: the run follows the parsing steps. *)
Lemma validate_config_exist sch cfg verbose w :
  is_Some (files w !! sch) → is_Some (files w !! cfg) →
  validate_config sch cfg verbose w =
    match read_doc sch w with
    | Raise ex =>
        (Ok None, printed (parse_failed_output verbose msg_bad_schema ex)
                    (logged [CParse sch] w))
    | Ok schdoc =>
        if xsd_compile schdoc then
          match read_doc cfg w with
          | Raise ex =>
              (Ok None, printed (parse_failed_output verbose msg_bad_config ex)
                          (logged [CParse sch; CXMLSchema; CParse cfg] w))
          | Ok tree =>
              if xsd_validate schdoc tree then
                check_integrity verbose tree
                  (logged [CParse sch; CXMLSchema; CParse cfg; CValidate] w)
              else
                (Ok None,
                 printed (schema_failed_output verbose (xsd_last_error schdoc tree))
                   (logged [CParse sch; CXMLSchema; CParse cfg; CValidate] w))
          end
        else (Raise XMLSchemaParseError, logged [CParse sch; CXMLSchema] w)
    end.
Proof.
  intros Hs Hc. unfold validate_config, bind, exists_, try_except.
  rewrite (bool_decide_eq_true_2 _ Hs). simpl.
  rewrite (bool_decide_eq_true_2 _ Hc). simpl.
  rewrite parse_run. destruct (read_doc sch w) as [schdoc | ex] eqn:Hsch.
  - unfold XMLSchema, bind, log. simpl.
    destruct (xsd_compile schdoc); simpl.
    + rewrite parse_run. change (add_call CXMLSchema (logged [CParse sch] w))
        with (logged [CXMLSchema] (logged [CParse sch] w)).
      rewrite !read_doc_logged.
      destruct (read_doc cfg w) as [tree | ex] eqn:Hcfg.
      * unfold validate, bind, log, ret. simpl.
        destruct (xsd_validate schdoc tree); simpl.
        -- f_equal. unfold logged, add_call. simpl.
           rewrite <- !app_assoc. done.
        -- rewrite schema_failed_run. f_equal. unfold printed, logged, add_call.
           simpl. rewrite <- !app_assoc. done.
      * rewrite parse_failed_run. f_equal. unfold printed, logged. simpl.
        rewrite <- !app_assoc. done.
    + unfold raise. f_equal. unfold logged, add_call. simpl.
      rewrite <- !app_assoc. done.
  - rewrite parse_failed_run. done.
Qed.

(** C4: for a document that the schema accepts, [validate_config]
    returns the parsed tree exactly when every [LegislativeBody] with a
    [ref] has a [LegislativeBody] whose [id] equals it and every
    [Subject] with a [ref] has such a [Subject]; otherwise, with a
    dangling reference of either family, it returns [False]. *)
Theorem validate_config_iff_refs_resolved sch cfg verbose w tree :
  schema_valid sch cfg w tree →
  let r := (validate_config sch cfg verbose w).1 in
  (r = Ok (Some tree)
   ↔ refs_resolved "LegislativeBody" tree ∧ refs_resolved "Subject" tree)
  ∧ (r = Ok None
     ↔ ¬ (refs_resolved "LegislativeBody" tree ∧ refs_resolved "Subject" tree)).
Proof.
  intros [schdoc (Hs & Hc & Ht & Hv)]. simpl.
  rewrite validate_config_exist by eauto using read_doc_exists.
  rewrite Hs, Hc, Ht, Hv, check_integrity_run. simpl.
  rewrite <- !resolved_spec.
  destruct (resolved "LegislativeBody" tree), (resolved "Subject" tree); simpl;
    (split; split; [intros E | intros E | intros E | intros E]);
    try done; try (intros [? ?]; done); try (by destruct E);
    try (exfalso; apply E; done).
Qed.

Lemma validate_config_resolved sch cfg verbose w tree :
  schema_valid sch cfg w tree →
  (validate_config sch cfg verbose w).1
  = Ok (if resolved "LegislativeBody" tree && resolved "Subject" tree
        then Some tree else None).
Proof.
  intros [schdoc (Hs & Hc & Ht & Hv)].
  rewrite validate_config_exist by eauto using read_doc_exists.
  by rewrite Hs, Hc, Ht, Hv, check_integrity_run.
Qed.

(** C10: the reference check of [validate_config] only asks for the
    existence of an identifier, over the whole document. A document
    that the schema accepts is returned exactly when every
    [LegislativeBody] (or [Subject]) with a [ref] has an element of the
    same tag with that [id] somewhere in the document, whatever its
    ancestors; and an element whose [id] equals its own [ref] is such
    an element for itself, so that the document is returned exactly
    when the other elements with a [ref] have one. In the other case
    the result is [False]. *)
Theorem reference_check_existence_only sch cfg verbose w tree :
  schema_valid sch cfg w tree →
  let r := (validate_config sch cfg verbose w).1 in
  (r = Ok (Some tree)
   ↔ ∀ t ref_tag, t ∈ ["LegislativeBody"; "Subject"] →
       ref_tag ∈ select_attr t "ref" tree →
       ∃ anc id_tag, (anc, id_tag) ∈ walk [] tree ∧ tag id_tag = t
                     ∧ get id_tag "id" = get ref_tag "ref")
  ∧ (r = Ok (Some tree)
     ↔ ∀ t ref_tag, t ∈ ["LegislativeBody"; "Subject"] →
         ref_tag ∈ select_attr t "ref" tree →
         get ref_tag "id" ≠ get ref_tag "ref" →
         ∃ anc id_tag, (anc, id_tag) ∈ walk [] tree ∧ tag id_tag = t
                       ∧ get id_tag "id" = get ref_tag "ref")
  ∧ (r = Ok (Some tree) ∨ r = Ok None).
Proof.
  intros Hv. simpl. rewrite (validate_config_resolved _ _ _ _ _ Hv).
  pose proof (resolved_anywhere "LegislativeBody" tree) as Hb.
  pose proof (resolved_anywhere "Subject" tree) as Hs.
  pose proof (resolved_but_self "LegislativeBody" tree) as Hb'.
  pose proof (resolved_but_self "Subject" tree) as Hs'.
  assert (Hboth : ∀ P : string → Prop,
            (resolved "LegislativeBody" tree = true ↔ P "LegislativeBody") →
            (resolved "Subject" tree = true ↔ P "Subject") →
            (Ok (if resolved "LegislativeBody" tree && resolved "Subject" tree
                 then Some tree else None) = Ok (Some tree)
             ↔ ∀ t, t ∈ ["LegislativeBody"; "Subject"] → P t)).
  { intros P HP1 HP2. split.
    - intros E t Ht.
      destruct (resolved "LegislativeBody" tree), (resolved "Subject" tree);
        try discriminate E.
      apply elem_of_cons in Ht as [-> | Ht]; [by apply HP1 |].
      apply elem_of_cons in Ht as [-> | Ht]; [by apply HP2 |].
      by apply elem_of_nil in Ht.
    - intros Hall.
      rewrite (proj2 HP1), (proj2 HP2); [done | |]; apply Hall;
        repeat (apply elem_of_cons; first [by left | right]). }
  split; [| split].
  - destruct (Hboth (fun t => ∀ ref_tag, ref_tag ∈ select_attr t "ref" tree →
                 ∃ anc id_tag, (anc, id_tag) ∈ walk [] tree ∧ tag id_tag = t
                               ∧ get id_tag "id" = get ref_tag "ref") Hb Hs)
      as [Hto Hfrom].
    split; [intros E t r Ht; by apply (Hto E t Ht) |].
    intros Hall. apply Hfrom. intros t Ht r. by apply Hall.
  - destruct (Hboth (fun t => ∀ ref_tag, ref_tag ∈ select_attr t "ref" tree →
                 get ref_tag "id" ≠ get ref_tag "ref" →
                 ∃ anc id_tag, (anc, id_tag) ∈ walk [] tree ∧ tag id_tag = t
                               ∧ get id_tag "id" = get ref_tag "ref") Hb' Hs')
      as [Hto Hfrom].
    split; [intros E t r Ht; by apply (Hto E t Ht) |].
    intros Hall. apply Hfrom. intros t Ht r. by apply Hall.
  - destruct (resolved "LegislativeBody" tree && resolved "Subject" tree); auto.
Qed.



End Validation.

(** ** Two runs side by side *)



Section Respect.
Context `{Lxml} {unicode_tables : Unicode}.

















End Respect.


(** ** Runs of merge_config *)



Lemma fappend_nil (n : fnode) : fappend EmptyString n = n.
Proof. destruct n; simpl; [by rewrite string_app_nil_r | done]. Qed.

Lemma fappend_app (a b : string) (n : fnode) :
  fappend b (fappend a n) = fappend (a +:+ b) n.
Proof. destruct n; simpl; [by rewrite string_app_assoc | done]. Qed.

(** Writes that follow each other are one write. *)
Lemma write_write (p a b : string) (w : world) :
  (write p a ;; write p b) w = write p (a +:+ b) w.
Proof.
  unfold write, bind, set_files. simpl. do 2 f_equal.
  rewrite alter_alter_eq. apply alter_ext. intros n _. apply fappend_app.
Qed.

Lemma write_nil (p : string) (w : world) : write p EmptyString w = (Ok tt, w).
Proof.
  unfold write, set_files. destruct w as [f d o c r n]. simpl. do 2 f_equal.
  apply alter_id. intros x _. apply fappend_nil.
Qed.

Lemma concat_cons (x : string) (l : list string) :
  String.concat EmptyString (x :: l) = x +:+ String.concat EmptyString l.
Proof. destruct l; [symmetry; apply string_app_nil_r | reflexivity]. Qed.

Lemma for_each_write (p : string) (l : list string) (w : world) :
  for_each l (fun line => write p line) w
  = write p (String.concat EmptyString l) w.
Proof.
  revert w. induction l as [| x l IH]; intros w.
  - by rewrite write_nil.
  - rewrite concat_cons, <- write_write. cbn [for_each]. unfold bind.
    destruct (write p x w) as [[[] | e] w']; [apply IH | done].
Qed.

Section Settings.
Context `{Lxml} {unicode_tables : Unicode}.

(** Lines 251-257 leave the text of the template in the settings
    file. *)
Lemma copy_template_run (text : string) (w : world) :
  files w !! settings_in = Some (Regular text) →
  (open_w settings_out w).1 = Ok tt →
  (copy_template w).1 = Ok tt
  ∧ content_of settings_out (copy_template w).2 = Some text.
Proof.
  intros Hin Hopen. unfold copy_template, bind, open_r. rewrite Hin.
  unfold open_w in *.
  destruct (files w !! settings_out) as [[c |] |]; try done.
  - rewrite for_each_write, readlines_concat. simpl. split; [done |].
    unfold content_of. simpl. by rewrite lookup_alter_eq, lookup_insert_eq.
  - destruct (bool_decide _); [| done].
    rewrite for_each_write, readlines_concat. simpl. split; [done |].
    unfold content_of. simpl. by rewrite lookup_alter_eq, lookup_insert_eq.
Qed.










(** [bannerimage] is no global of the module. *)
Lemma write_banner_raises (cfg : element) (w : world) :
  write_banner cfg w = (Raise NameError, w).
Proof. reflexivity. Qed.

(** The body of the [try] ends at the banner test. *)
Lemma merge_body_stops (config : element) (w : world) :
  merge_body config w =
    match merge_head config w with
    | (Ok _, w') => (Raise NameError, w')
    | (Raise e, w') => (Raise e, w')
    end.
Proof.
  unfold merge_body, bind. destruct (merge_head config w) as [[p | e] w']; [| done].
  by rewrite write_banner_raises.
Qed.

Lemma settings_failed_run (verbose : Z) (ex : exn) (w : world) :
  settings_failed verbose ex w =
    (Ok false,
     printed ((if 0 <? verbose then [Text msg_not_written] else [])
              ++ if 1 <? verbose then [Traceback ex] else []) w).
Proof.
  unfold settings_failed, printed, bind, when.
  destruct w, (0 <? verbose), (1 <? verbose); simpl; unfold add_stdout; simpl;
    rewrite <- ?app_assoc, ?app_nil_r; done.
Qed.


Lemma merge_config_run (config : element) (verbose : Z) (w : world) :
  ∃ e, (merge_body config w) = (Raise e, (merge_head config w).2)
       ∧ merge_config config verbose w =
           settings_failed verbose e (merge_head config w).2.
Proof.
  unfold merge_config, try_except. rewrite merge_body_stops.
  destruct (merge_head config w) as [[p | e] w']; simpl; eauto.
Qed.

(** C1: for every document, [merge_config] returns [False]. The body
    of its [try] always raises, and leaves the files and the lxml calls
    as the statements before the banner test made them, so nothing of
    the Reporting, GoogleAnalytics, Upload, MaxUndos and Leaderboard
    settings is written; when those statements succeed, the exception
    is the [NameError] of [bannerimage]. *)
Theorem merge_config_always_fails config verbose w :
  (merge_config config verbose w).1 = Ok false
  ∧ (∃ e, merge_body config w = (Raise e, (merge_head config w).2))
  ∧ files (merge_config config verbose w).2 = files (merge_head config w).2
  ∧ calls (merge_config config verbose w).2 = calls (merge_head config w).2
  ∧ ∀ p w1, merge_head config w = (Ok p, w1) →
      merge_body config w = (Raise NameError, w1).
Proof.
  destruct (merge_config_run config verbose w) as (e & Hb & ->).
  rewrite settings_failed_run. simpl. repeat split; eauto.
  intros p w1 Hh. rewrite merge_body_stops, Hh. done.
Qed.


End Settings.

(** ** The sample documents *)

Section Samples.
Import Sample.

(** The four sample documents that the schema accepts and whose
    references are resolved pass validation. *)
Example validated_samples :
  (validate_config "schema.xsd" "plain.xml" 1 world0).1 = Ok (Some config_plain)
  ∧ (validate_config "schema.xsd" "bard.xml" 1 world0).1 = Ok (Some config_bard)
  ∧ (validate_config "schema.xsd" "selfref.xml" 1 world0).1 = Ok (Some config_selfref)
  ∧ (validate_config "schema.xsd" "dangling.xml" 1 world0).1 = Ok None.
Proof. vm_compute. done. Qed.

(** Called on its own, [create_report_templates] writes one file per
    body, named after the lowered name, with the body's id as
    parameter. *)
Example templates_when_called :
  let r := create_report_templates config_bard xslt templates world0 in
  r.1 = Ok tt
  ∧ content_of (template_path templates "congressional") r.2
      = Some "<div id='congress'/>"
  ∧ content_of (template_path templates "state senate") r.2
      = Some "<div id='senate'/>"
  ∧ size (files r.2) = (2 + size (files world0))%nat
  ∧ calls r.2 = [CParse "/data/bard_template.xslt"; CXSLT;
                 CXPath "//DistrictBuilder/LegislativeBodies/LegislativeBody";
                 CTransform "congress"; CTransform "senate"].
Proof. vm_compute. done. Qed.

(** Run from the state that the statements before the banner test
    leave, the statements after it write the report setting, the
    defaults and the templates. *)
Example tail_when_reached :
  let plain := merge_tail config_plain root (merge_head config_plain world0).2 in
  let bard := merge_tail config_bard root (merge_head config_bard world0).2 in
  plain.1 = Ok tt
  ∧ settings_has "REPORTS_ENABLED = False" plain.2 = true
  ∧ settings_has "MAX_UPLOAD_SIZE = 5000 * 1024" plain.2 = true
  ∧ settings_has "MAX_UNDOS_DURING_EDIT = 0" plain.2 = true
  ∧ settings_has "MAX_UNDOS_AFTER_EDIT = 0" plain.2 = true
  ∧ settings_has "LEADERBOARD_MAX_RANKED = 10" plain.2 = true
  ∧ size (files plain.2) = (1 + size (files world0))%nat
  ∧ bard.1 = Ok tt
  ∧ settings_has "REPORTS_ENABLED = True" bard.2 = true
  ∧ content_of (template_path templates "congressional") bard.2
      = Some "<div id='congress'/>"
  ∧ size (files bard.2) = (3 + size (files world0))%nat.
Proof. vm_compute. done. Qed.

(** C2, at [config_plain], a validated document without [BardConfig]:
    [merge_config] returns [False] and the settings file it leaves has
    no line [REPORTS_ENABLED = False]; no template is made. *)
Theorem no_reports_line_without_bard :
  let r := merge_config config_plain 1 world0 in
  (validate_config "schema.xsd" "plain.xml" 1 world0).1 = Ok (Some config_plain)
  ∧ select ["BardConfig"] config_plain = []
  ∧ r.1 = Ok false
  ∧ settings_has "SESSION_TIMEOUT = 15" r.2 = true
  ∧ settings_has "REPORTS_ENABLED = False" r.2 = false
  ∧ size (files r.2) = (1 + size (files world0))%nat.
Proof. vm_compute. done. Qed.

(** C3, at [config_bard], a validated document with a [BardConfig] and
    two bodies: [merge_config] returns [False], the settings file has
    no line [REPORTS_ENABLED = True], lxml is never asked for a
    transform and the only file made is the settings file. *)
Theorem no_templates_with_bard :
  let r := merge_config config_bard 1 world0 in
  (validate_config "schema.xsd" "bard.xml" 1 world0).1 = Ok (Some config_bard)
  ∧ length (select ["BardConfig"] config_bard) = 1%nat
  ∧ length (select bodies_path config_bard) = 2%nat
  ∧ r.1 = Ok false
  ∧ settings_has "REPORTS_ENABLED = True" r.2 = false
  ∧ files r.2 !! template_path templates "congressional" = None
  ∧ files r.2 !! template_path templates "state senate" = None
  ∧ size (files r.2) = (1 + size (files world0))%nat
  ∧ calls r.2 = [CXPath "//Project/Database"; CXPath "//MapServer";
                 CXPath "//Admin"; CXPath "//Mailer"; CXPath "//Project"].
Proof. vm_compute. done. Qed.

(** C6, at [config_plain], which has no [sessionquota], no
    [sessiontimeout] and no [Upload], [MaxUndos] or [Leaderboard]: the
    two session defaults are written, the three others are not. *)
Theorem defaults_after_banner_missing :
  let r := merge_config config_plain 1 world0 in
  select ["Upload"] config_plain = []
  ∧ select ["MaxUndos"] config_plain = []
  ∧ select ["Leaderboard"] config_plain = []
  ∧ r.1 = Ok false
  ∧ settings_has "CONCURRENT_SESSIONS = 5" r.2 = true
  ∧ settings_has "SESSION_TIMEOUT = 15" r.2 = true
  ∧ settings_has "MAX_UPLOAD_SIZE = 5000 * 1024" r.2 = false
  ∧ settings_has "MAX_UNDOS_DURING_EDIT = 0" r.2 = false
  ∧ settings_has "MAX_UNDOS_AFTER_EDIT = 0" r.2 = false
  ∧ settings_has "LEADERBOARD_MAX_RANKED = 10" r.2 = false.
Proof. vm_compute. done. Qed.



Lemma merge_config_always_fails_witness :
  (merge_body config_plain world0).1 = Raise NameError.
Proof.
  destruct (merge_head config_plain world0) as [[p | e] w1] eqn:E.
  - destruct (merge_config_always_fails config_plain 1 world0)
      as (_ & _ & _ & _ & Hname).
    rewrite (Hname p w1 E). reflexivity.
  - vm_compute in E. discriminate E.
Defined.

Lemma validate_config_iff_refs_resolved_witness :
  schema_valid "schema.xsd" "plain.xml" world0 config_plain
  ∧ (validate_config "schema.xsd" "plain.xml" 1 world0).1 = Ok (Some config_plain).
Proof.
  assert (Hv : schema_valid "schema.xsd" "plain.xml" world0 config_plain).
  { exists schema_doc. vm_compute. done. }
  split; [exact Hv |].
  destruct (validate_config_iff_refs_resolved "schema.xsd" "plain.xml" 1
              world0 config_plain Hv) as [[_ Hback] _].
  apply Hback. split; apply resolved_spec; vm_compute; reflexivity.
Defined.




Lemma reference_check_existence_only_witness :
  schema_valid "schema.xsd" "selfref.xml" world0 config_selfref
  ∧ council ∈ select_attr "LegislativeBody" "ref" config_selfref
  ∧ get council "id" = get council "ref"
  ∧ (["GeoLevels"; "DistrictBuilder"], board_id) ∈ walk [] config_selfref
  ∧ (validate_config "schema.xsd" "selfref.xml" 1 world0).1
    = Ok (Some config_selfref).
Proof.
  assert (Hv : schema_valid "schema.xsd" "selfref.xml" world0 config_selfref).
  { exists schema_doc. vm_compute. done. }
  assert (Hw : (["GeoLevels"; "DistrictBuilder"], board_id)
               ∈ walk [] config_selfref).
  { apply list_elem_of_In. vm_compute. do 5 right. by left. }
  split; [exact Hv |].
  split; [apply list_elem_of_In; vm_compute; by left |].
  split; [reflexivity |]. split; [exact Hw |].
  destruct (reference_check_existence_only "schema.xsd" "selfref.xml" 1 world0
              config_selfref Hv) as (_ & [_ Hback] & _).
  apply Hback. intros t r Ht Hr Hne.
  apply elem_of_cons in Ht as [-> | Ht].
  - vm_compute in Hr. apply elem_of_cons in Hr as [-> | Hr]; [done |].
    apply elem_of_cons in Hr as [-> | Hr]; [| by apply elem_of_nil in Hr].
    exists ["GeoLevels"; "DistrictBuilder"], board_id. done.
  - apply elem_of_cons in Ht as [-> | Ht]; [| by apply elem_of_nil in Ht].
    vm_compute in Hr. by apply elem_of_nil in Hr.
Defined.

End Samples.

(** ** More on validate_config *)

Lemma quiet_both (verbose : Z) : (0 <? verbose) = false → (1 <? verbose) = false.
Proof. intros Hq. apply Z.ltb_ge in Hq. apply Z.ltb_ge. lia. Qed.

Section ValidationMore.
Context `{Lxml} {unicode_tables : Unicode}.

(** Every run of [validate_config] ends in the world it started in, up
    to what was printed and the lxml calls made; it prints nothing at
    verbosity 0 and raises in one situation only. *)
Lemma validate_config_shape sch cfg verbose w :
  ∃ r out trace,
    validate_config sch cfg verbose w = (r, printed out (logged trace w))
    ∧ ((0 <? verbose) = false → out = [])
    ∧ (∀ e, r = Raise e →
         e = XMLSchemaParseError ∧ is_Some (files w !! cfg)
         ∧ ∃ schdoc, read_doc sch w = Ok schdoc ∧ xsd_compile schdoc = false).
Proof.
  assert (Hp : ∀ l v, printed l v = printed l (logged [] v)).
  { intros l [f d o c r n]. unfold printed, logged. simpl. by rewrite !app_nil_r. }
  destruct (files w !! sch) eqn:Fs.
  2: { rewrite validate_config_no_schema by done. eexists _, _, []. rewrite <- Hp.
       split; [done |]. split; [by intros -> | done]. }
  destruct (files w !! cfg) eqn:Fc.
  2: { rewrite validate_config_no_config by eauto. eexists _, _, []. rewrite <- Hp.
       split; [done |]. split; [by intros -> | done]. }
  rewrite validate_config_exist by eauto.
  destruct (read_doc sch w) as [schdoc | ex] eqn:Hs.
  2: { eexists _, _, _. split; [done |]. split; [| done].
       unfold parse_failed_output. intros Hq.
       by rewrite Hq, (quiet_both _ Hq). }
  destruct (xsd_compile schdoc) eqn:Hc.
  2: { exists (Raise XMLSchemaParseError), [], [CParse sch; CXMLSchema].
       split; [| split; [done |]].
       - f_equal. destruct w. unfold printed, logged. simpl. by rewrite app_nil_r.
       - intros e [= <-]. eauto 10. }
  destruct (read_doc cfg w) as [tree | ex] eqn:Ht.
  2: { eexists _, _, _. split; [done |]. split; [| done].
       unfold parse_failed_output. intros Hq.
       by rewrite Hq, (quiet_both _ Hq). }
  destruct (xsd_validate schdoc tree) eqn:Hv.
  2: { eexists _, _, _. split; [done |]. split; [| done].
       unfold schema_failed_output. intros Hq.
       by rewrite (quiet_both _ Hq). }
  rewrite check_integrity_run.
  eexists _, (integrity_output verbose tree),
    ([CParse sch; CXMLSchema; CParse cfg; CValidate] ++ integrity_calls tree).
  split; [| split].
  - f_equal. destruct w. unfold printed, logged. simpl. by rewrite <- !app_assoc.
  - unfold integrity_output. intros Hq. rewrite Hq, (quiet_both _ Hq).
    by destruct (resolved "LegislativeBody" tree), (resolved "Subject" tree).
  - by destruct (_ && _).
Qed.

Lemma validate_config_quiet sch cfg verbose w :
  verbose <= 0 → stdout (validate_config sch cfg verbose w).2 = stdout w.
Proof.
  intros Hv.
  destruct (validate_config_shape sch cfg verbose w) as (r & out & trace & -> & Hq & _).
  rewrite Hq by (apply Z.ltb_ge; lia). simpl. by rewrite app_nil_r.
Qed.

(** X1: [validate_config] only reads. In every run, whatever the
    outcome, the files, the writable directories and the random
    generator are left as they were. *)
Theorem validate_config_read_only sch cfg verbose w :
  let w' := (validate_config sch cfg verbose w).2 in
  files w' = files w ∧ wdirs w' = wdirs w ∧ rng w' = rng w ∧ drawn w' = drawn w.
Proof.
  destruct (validate_config_shape sch cfg verbose w) as (r & out & trace & -> & _).
  simpl. done.
Qed.


(** X3: a successful validation returns the tree after eight lxml
    calls in a fixed order, and prints its two progress lines when the
    verbosity is above 0 and nothing otherwise. *)
Theorem validate_config_success sch cfg verbose w tree :
  schema_valid sch cfg w tree →
  resolved "LegislativeBody" tree = true → resolved "Subject" tree = true →
  let r := validate_config sch cfg verbose w in
  r.1 = Ok (Some tree)
  ∧ stdout r.2 = stdout w ++ (if 0 <? verbose
                              then [progress_line; Text "Document validated."]
                              else [])
  ∧ calls r.2 = calls w ++
      [CParse sch; CXMLSchema; CParse cfg; CValidate;
       CXPath "//LegislativeBody[@ref]"; CXPath "//LegislativeBody[@id]";
       CXPath "//Subject[@ref]"; CXPath "//Subject[@id]"].
Proof.
  intros [schdoc (Hs & Hc & Ht & Hv)] Hb Hsub. simpl.
  rewrite validate_config_exist by eauto using read_doc_exists.
  rewrite Hs, Hc, Ht, Hv, check_integrity_run. simpl.
  unfold integrity_output, integrity_calls. rewrite Hb, Hsub. simpl.
  split; [done |]. split; [by destruct (0 <? verbose) |].
  by rewrite <- app_assoc.
Qed.

(** X4: the [LegislativeBody] references are checked first. When one
    of them dangles, [validate_config] returns [False] without looking
    the [Subject] elements up, and never prints the message about
    subjects. *)
Theorem body_refs_checked_first sch cfg verbose w tree :
  schema_valid sch cfg w tree →
  resolved "LegislativeBody" tree = false →
  let r := validate_config sch cfg verbose w in
  r.1 = Ok None
  ∧ calls r.2 = calls w ++
      [CParse sch; CXMLSchema; CParse cfg; CValidate;
       CXPath "//LegislativeBody[@ref]"; CXPath "//LegislativeBody[@id]"]
  ∧ ∀ o, o ∈ drop (length (stdout w)) (stdout r.2) → o ≠ Text msg_subject_refs.
Proof.
  intros [schdoc (Hs & Hc & Ht & Hv)] Hb. simpl.
  rewrite validate_config_exist by eauto using read_doc_exists.
  rewrite Hs, Hc, Ht, Hv, check_integrity_run. simpl.
  unfold integrity_output, integrity_calls. rewrite Hb. simpl.
  split; [done |]. split; [by rewrite <- app_assoc |].
  intros o. rewrite drop_app_length. unfold progress_line.
  destruct (0 <? verbose), (1 <? verbose); simpl; intros Ho;
    repeat (apply elem_of_cons in Ho as [-> | Ho]; [discriminate |]);
    by apply elem_of_nil in Ho.
Qed.

End ValidationMore.

(** ** More on merge_config *)

Section Frame.
Context `{Lxml} {unicode_tables : Unicode}.

Lemma only_ret {A} (a : A) : settings_only (ret a).
Proof. intros w. done. Qed.

Lemma only_raise {A} (e : exn) : settings_only (@raise A e).
Proof. intros w. done. Qed.

Lemma only_lift {A} (r : result A) : settings_only (lift r).
Proof. intros w. done. Qed.

Lemma only_bind {A B} (m : M A) (k : A → M B) :
  settings_only m → (∀ a, settings_only (k a)) → settings_only (bind m k).
Proof.
  intros Hm Hk w. destruct (Hm w) as (Hd & Ho & Hf). unfold bind.
  destruct (m w) as [[a | e] w1]; simpl in *; [| done].
  destruct (Hk a w1) as (Hd' & Ho' & Hf').
  split; [congruence |]. split; [congruence |].
  intros p Hp. by rewrite Hf', Hf.
Qed.

Lemma only_first {A} (l : list A) : settings_only (first l).
Proof. destruct l; [apply only_raise | apply only_ret]. Qed.

Lemma only_when (b : bool) (m : M unit) :
  settings_only m → settings_only (when b m).
Proof. destruct b; [done | intros; apply only_ret]. Qed.

Lemma only_log (c : call) : settings_only (log c).
Proof. intros w. done. Qed.

Lemma only_write (text : string) : settings_only (write settings_out text).
Proof.
  intros w. split; [done |]. split; [done |]. intros p Hp. simpl.
  by rewrite lookup_alter_ne.
Qed.

Lemma only_write_text (text : string) : settings_only (write_text text).
Proof.
  unfold write_text. destruct (is_ascii text); [apply only_write | apply only_raise].
Qed.

Lemma only_open_r (p : string) : settings_only (open_r p).
Proof. intros w. unfold open_r. by destruct (files w !! p) as [[c |] |]. Qed.

Lemma only_open_w : settings_only (open_w settings_out).
Proof.
  intros w. unfold open_w.
  destruct (files w !! settings_out) as [[c |] |]; simpl.
  - split; [done |]. split; [done |]. intros p Hp. by rewrite lookup_insert_ne.
  - done.
  - destruct (bool_decide _); simpl; [| done].
    split; [done |]. split; [done |]. intros p Hp. by rewrite lookup_insert_ne.
Qed.

Lemma only_for_each {A} (l : list A) (body : A → M unit) :
  (∀ x, settings_only (body x)) → settings_only (for_each l body).
Proof.
  intros Hb. induction l as [| x l IH]; simpl; [apply only_ret |].
  apply only_bind; [apply Hb | intros _; apply IH].
Qed.

Lemma only_choice (seq : string) : settings_only (choice seq).
Proof. intros w. unfold choice. by destruct (String.get _ seq). Qed.

Lemma only_choices (seq : string) (n : nat) : settings_only (choices seq n).
Proof.
  induction n as [| n IH]; simpl; [apply only_ret |].
  apply only_bind; [apply only_choice | intros c].
  apply only_bind; [apply IH | intros s; apply only_ret].
Qed.

End Frame.

Ltac frame :=
  repeat first
    [ apply only_write_text | apply only_write | apply only_first | apply only_log | apply only_ret
    | apply only_lift | apply only_open_r | apply only_open_w
    | apply only_choices | apply only_when
    | apply only_for_each; intros ?
    | apply only_bind; [| intros ?] ].

Lemma bind_same_start {A B} (m : M A) (k : A → M B) (w1 w2 : world) :
  m w1 = m w2 → bind m k w1 = bind m k w2.
Proof. unfold bind. by intros ->. Qed.

Section MergeMore.
Context `{Lxml} {unicode_tables : Unicode}.

Lemma only_merge_head config : settings_only (merge_head config).
Proof.
  unfold merge_head, copy_template, write_database, write_mapserver,
    write_admin, write_mailer, write_secret, write_project, write_str,
    write_int, xpath.
  frame.
Qed.

Lemma merge_config_false config verbose w :
  (merge_config config verbose w).1 = Ok false.
Proof.
  destruct (merge_config_run config verbose w) as (e & _ & ->).
  by rewrite settings_failed_run.
Qed.

Lemma merge_config_quiet config verbose w :
  verbose <= 0 → stdout (merge_config config verbose w).2 = stdout w.
Proof.
  intros Hv. destruct (merge_config_run config verbose w) as (e & _ & ->).
  rewrite settings_failed_run. simpl.
  destruct (only_merge_head config w) as (_ & -> & _).
  assert (Hq : (0 <? verbose) = false) by (apply Z.ltb_ge; lia).
  rewrite Hq, (quiet_both _ Hq). simpl. by rewrite app_nil_r.
Qed.

Lemma copy_template_overwrites (text old old' : string) (w : world) :
  files w !! settings_in = Some (Regular text) →
  copy_template (set_files <[settings_out := Regular old]> w)
  = copy_template (set_files <[settings_out := Regular old']> w).
Proof.
  intros Hin. unfold copy_template, bind, open_r, open_w. simpl.
  rewrite !(lookup_insert_ne _ settings_out settings_in) by done.
  rewrite Hin. simpl. rewrite !lookup_insert_eq. unfold set_files. simpl.
  by rewrite !insert_insert_eq.
Qed.

Lemma creatable_open_w (p : string) (w : world) :
  creatable w p = true → (open_w p w).1 = Ok tt.
Proof.
  unfold creatable, open_w. destruct (files w !! p) as [[c |] |]; try done.
  by intros ->.
Qed.

(** X5: when the template can be read and the settings file opened,
    lines 251-257 succeed and leave in the settings file exactly the
    text of the template, whatever the file held before. *)
Theorem template_copied_whole (text : string) (w : world) :
  files w !! settings_in = Some (Regular text) →
  creatable w settings_out = true →
  (copy_template w).1 = Ok tt
  ∧ content_of settings_out (copy_template w).2 = Some text.
Proof.
  intros Hin Hcre. apply copy_template_run; [exact Hin |].
  by apply creatable_open_w.
Qed.

(** X6: a run of [merge_config] overwrites. When the template can be
    read, neither the result nor the world it leaves depends on what a
    regular settings file held before. *)
Theorem merge_config_overwrites config verbose (text old old' : string) w :
  files w !! settings_in = Some (Regular text) →
  merge_config config verbose (set_files <[settings_out := Regular old]> w)
  = merge_config config verbose (set_files <[settings_out := Regular old']> w).
Proof.
  intros Hin. unfold merge_config, try_except, merge_body.
  rewrite (bind_same_start (merge_head config) _
             (set_files <[settings_out := Regular old]> w)
             (set_files <[settings_out := Regular old']> w)); [done |].
  unfold merge_head. apply bind_same_start.
  by eapply copy_template_overwrites.
Qed.

(** X7: whatever the document, [merge_config] creates, changes or
    removes no file other than the settings file, and leaves the
    directories as they were. *)
Theorem merge_config_touches_settings_only config verbose w :
  let w' := (merge_config config verbose w).2 in
  wdirs w' = wdirs w
  ∧ ∀ p, p ≠ settings_out → files w' !! p = files w !! p.
Proof.
  simpl. destruct (merge_config_run config verbose w) as (e & _ & ->).
  rewrite settings_failed_run. simpl.
  destruct (only_merge_head config w) as (Hd & _ & Hf). done.
Qed.

(** X8: whatever went wrong in its [try], [merge_config] prints the
    same single message when the verbosity is above 0, followed by the
    traceback of the exception when it is above 1, and nothing else. *)
Theorem merge_config_one_message config verbose w :
  ∃ ex, (merge_body config w).1 = Raise ex
        ∧ stdout (merge_config config verbose w).2
          = stdout w ++ settings_failed_output verbose ex.
Proof.
  destruct (merge_config_run config verbose w) as (e & Hb & ->).
  exists e. rewrite Hb, settings_failed_run. simpl. split; [done |].
  destruct (only_merge_head config w) as (_ & -> & _). done.
Qed.

(** X9: for a document without a [Database] element under [Project],
    line 259 raises [IndexError]: [merge_config] returns [False] and
    the settings file holds the copy of the template and nothing
    more. *)
Theorem no_database_leaves_template config verbose (text : string) w :
  files w !! settings_in = Some (Regular text) →
  creatable w settings_out = true →
  select ["Project"; "Database"] config = [] →
  let r := merge_config config verbose w in
  r.1 = Ok false
  ∧ (merge_body config w).1 = Raise IndexError
  ∧ content_of settings_out r.2 = Some text.
Proof.
  intros Hin Hcre Hsel. simpl.
  destruct (copy_template_run text w Hin (creatable_open_w _ _ Hcre))
    as [Hc Hcontent].
  assert (Hh : merge_head config w
               = (Raise IndexError,
                  add_call (CXPath "//Project/Database") (copy_template w).2)).
  { unfold merge_head, bind. destruct (copy_template w) as [[[] | e] w1];
      simpl in *; [| done].
    unfold write_database, xpath, bind, log. simpl. by rewrite Hsel. }
  destruct (merge_config_run config verbose w) as (e & Hb & ->).
  rewrite settings_failed_run. simpl. split; [done |].
  rewrite merge_body_stops, Hh. split; [done |]. exact Hcontent.
Qed.

(** X10: a [Database] element without [name], [user], [password] and
    [host] is not refused: lines 259-265 succeed and write the three
    first as the quoted word None and the host as the empty string. *)
Theorem missing_database_attributes config cfg rest w :
  select ["Project"; "Database"] config = cfg :: rest →
  get cfg "name" = None → get cfg "user" = None →
  get cfg "password" = None → get cfg "host" = None →
  write_database config w
  = (Ok tt,
     set_files (alter (fappend database_without_attributes) settings_out)
       (add_call (CXPath "//Project/Database") w)).
Proof.
  intros Hsel Hn Hu Hp Hh. unfold write_database, xpath, bind, log. simpl.
  rewrite Hsel. simpl. unfold write_str, get_default.
  rewrite Hn, Hu, Hp, Hh. rewrite !write_text_ascii by reflexivity.
  unfold write, set_files. simpl.
  do 2 f_equal. rewrite !alter_alter_eq. apply alter_ext. intros n _. simpl.
  rewrite !fappend_app. f_equal.
Qed.

(** X20: a [Database] name that is not ASCII reaches line 262 as a
    unicode object, and the write of that line raises
    [UnicodeEncodeError]: the two lines before it are written, the
    name and what follows are not. *)
Theorem unicode_name_raises config cfg rest name w :
  select ["Project"; "Database"] config = cfg :: rest →
  get cfg "name" = Some name → is_ascii name = false →
  write_database config w
  = (Raise UnicodeEncodeError,
     set_files (alter (fappend database_header) settings_out)
       (add_call (CXPath "//Project/Database") w)).
Proof.
  intros Hsel Hn Hname. unfold write_database, xpath, bind, log. simpl.
  rewrite Hsel. simpl. unfold write_str at 1. rewrite Hn.
  assert (Htext : is_ascii (quoted ("DATABASE_NAME" +:+ " = '") (Some name)
                              ("'" +:+ nl)) = false).
  { unfold quoted. simpl. rewrite !is_ascii_app, Hname. reflexivity. }
  unfold write_text at 1. rewrite Htext. unfold raise, write, set_files. simpl.
  do 2 f_equal. rewrite !alter_alter_eq. apply alter_ext. intros n _. simpl.
  rewrite !fappend_app. f_equal.
Qed.

(** X11: the session defaults apply to an empty attribute as to an
    absent one. When the [root] that lxml returns is absent or a byte
    string, and [sessionquota] and [sessiontimeout] are each absent or
    empty, lines 290-306 succeed and what they write ends with
    [CONCURRENT_SESSIONS = 5] and [SESSION_TIMEOUT = 15]. *)
Theorem session_defaults config cfg rest w :
  select ["Project"] config = cfg :: rest →
  ascii_attr cfg "root" = true →
  (get cfg "sessionquota" = None ∨ get cfg "sessionquota" = Some EmptyString) →
  (get cfg "sessiontimeout" = None ∨ get cfg "sessiontimeout" = Some EmptyString) →
  ∃ text,
    write_project config w
    = (Ok (cfg, get cfg "root"),
       set_files
         (alter (fappend (text +:+ nl +:+ "CONCURRENT_SESSIONS = 5" +:+ nl
                               +:+ nl +:+ "SESSION_TIMEOUT = 15" +:+ nl))
                settings_out)
         (add_call (CXPath "//Project") w)).
Proof.
  intros Hsel Hroot Hq Ht. pose proof (ascii_attr_spec _ _ Hroot) as Hr.
  exists (quoted (nl +:+ "MEDIA_ROOT = '") (get cfg "root")
                 ("/django/publicmapping/site-media/'" +:+ nl)
          +:+ quoted (nl +:+ "STATIC_ROOT = '") (get cfg "root")
                     ("/django/publicmapping/static-media/'" +:+ nl)
          +:+ quoted (nl +:+ "TEMPLATE_DIRS = (" +:+ nl +:+ "  '") (get cfg "root")
                     ("/django/publicmapping/templates'," +:+ nl +:+ ")" +:+ nl)
          +:+ quoted (nl +:+ "SLD_ROOT = '") (get cfg "root") ("/sld/'" +:+ nl)).
  unfold write_project, xpath, bind, log. simpl. rewrite Hsel. simpl.
  rewrite !write_text_ascii by (by apply is_ascii_quoted).
  assert (Hq' : truthy (of_attr (get cfg "sessionquota")) = false)
    by (destruct Hq as [-> | ->]; done).
  assert (Ht' : truthy (of_attr (get cfg "sessiontimeout")) = false)
    by (destruct Ht as [-> | ->]; done).
  rewrite Hq', Ht'. simpl.
  unfold write_int, bind, lift, write. simpl. unfold set_files. simpl.
  do 2 f_equal. rewrite !alter_alter_eq. apply alter_ext. intros n _. simpl.
  rewrite !fappend_app. f_equal. rewrite !string_app_assoc. reflexivity.
Qed.


End MergeMore.

(** ** More on create_report_templates *)

Lemma put_pages_app (l1 l2 : list (string * string)) (f : gmap string fnode) :
  put_pages (l1 ++ l2) f = put_pages l2 (put_pages l1 f).
Proof.
  revert f. induction l1 as [| [p html] l1 IH]; intros f; simpl; [done | apply IH].
Qed.

Lemma put_pages_other (pages : list (string * string)) (f : gmap string fnode)
    (q : string) :
  q ∉ pages.*1 → put_pages pages f !! q = f !! q.
Proof.
  revert f. induction pages as [| [p html] pages IH]; intros f Hq; simpl; [done |].
  simpl in Hq. apply not_elem_of_cons in Hq as [Hne Hq].
  rewrite IH by done. by rewrite lookup_insert_ne.
Qed.

(** The last page written at a path is the one that stays. *)
Lemma put_pages_last (pre post : list (string * string)) (p html : string)
    (f : gmap string fnode) :
  p ∉ post.*1 →
  put_pages (pre ++ (p, html) :: post) f !! p = Some (Regular html).
Proof.
  intros Hp. rewrite put_pages_app. simpl.
  rewrite put_pages_other by done. apply lookup_insert_eq.
Qed.

Lemma creatable_insert (w : world) (q p : string) (n : string) :
  creatable w p = true →
  creatable (set_files <[q := Regular n]> w) p = true.
Proof.
  unfold creatable. simpl. destruct (decide (q = p)) as [-> | Hne].
  - by rewrite lookup_insert_eq.
  - by rewrite lookup_insert_ne.
Qed.

Lemma for_each_app {A} (l1 l2 : list A) (body : A → M unit) (w : world) :
  for_each (l1 ++ l2) body w = (for_each l1 body ;; for_each l2 body) w.
Proof.
  revert w. induction l1 as [| x l1 IH]; intros w; simpl; [done |].
  unfold bind. destruct (body x w) as [[[] | e] w1]; [apply IH | done].
Qed.

Section TemplatesMore.
Context `{Lxml} {unicode_tables : Unicode}.

Lemma template_step_run transform config dir body p html w :
  page transform config dir body = Some (p, html) →
  creatable w p = true →
  ∃ id, template_step transform config dir body w
        = (Ok tt, set_files <[p := Regular html]> (add_call (CTransform id) w)).
Proof.
  unfold page, template_step, creatable. intros Hpage Hcre.
  destruct (get body "name") as [name |]; [| done].
  destruct (get body "id") as [id |]; [| done].
  destruct (xslt_apply transform config id) as [h |] eqn:Ha; [| done].
  injection Hpage as <- <-. exists id.
  unfold bind, attr_lower, strparam, apply_transform, bind, log, ret. simpl.
  rewrite Ha. simpl. unfold open_w. simpl.
  destruct (files w !! template_path dir (py_lower name)) as [[c |] |]; try done.
  - unfold write, set_files. simpl. by rewrite alter_insert_eq.
  - rewrite Hcre. unfold write, set_files. simpl. by rewrite alter_insert_eq.
Qed.


Lemma template_step_nameless transform config dir body w :
  get body "name" = None →
  template_step transform config dir body w = (Raise AttributeError, w).
Proof. intros Hn. unfold template_step, bind. by rewrite Hn. Qed.

Lemma template_loop_run transform config dir bodies pages w :
  Forall2 (fun b pg => page transform config dir b = Some pg) bodies pages →
  Forall (fun p => creatable w p = true) pages.*1 →
  ∃ trace,
    for_each bodies (template_step transform config dir) w
    = (Ok tt, set_files (put_pages pages) (logged trace w)).
Proof.
  intros Hpages. revert w.
  induction Hpages as [| b [p html] bodies pages Hb _ IH]; intros w Hcre.
  - exists []. simpl. unfold ret, set_files, logged. destruct w. simpl.
    by rewrite app_nil_r.
  - simpl in Hcre. apply Forall_cons in Hcre as [Hp Hrest].
    destruct (template_step_run _ _ _ _ _ _ w Hb Hp) as [id Hstep].
    destruct (IH (set_files <[p := Regular html]> (add_call (CTransform id) w)))
      as [trace Hloop].
    { eapply Forall_impl; [exact Hrest |]. intros q Hq.
      apply creatable_insert. exact Hq. }
    exists (CTransform id :: trace). simpl. unfold bind. rewrite Hstep, Hloop.
    f_equal. unfold set_files, logged, add_call. simpl.
    by rewrite <- app_assoc.
Qed.

(** With a good stylesheet, what is left of [create_report_templates]
    is its loop. *)
Lemma create_report_templates_start config xp dir w transform :
  stylesheet xp w transform →
  create_report_templates config (Some xp) dir w
  = for_each (select bodies_path config) (template_step transform config dir)
      (logged (report_calls xp) w).
Proof.
  intros (c & Hf & Hx & Hc).
  unfold create_report_templates, file, parse_file, XSLT, xpath, open_r, log.
  unfold bind. simpl. rewrite Hf. simpl. rewrite Hx. simpl. rewrite Hc. simpl.
  unfold logged, add_call, report_calls. simpl. rewrite <- !app_assoc. done.
Qed.

Lemma create_report_templates_run config xp dir w transform pages :
  stylesheet xp w transform →
  Forall2 (fun b pg => page transform config dir b = Some pg)
    (select bodies_path config) pages →
  Forall (fun p => creatable w p = true) pages.*1 →
  ∃ trace,
    create_report_templates config (Some xp) dir w
    = (Ok tt, set_files (put_pages pages) (logged trace w)).
Proof.
  intros Hs Hp Hc. rewrite (create_report_templates_start _ _ _ _ _ Hs).
  destruct (template_loop_run _ _ _ _ _ (logged (report_calls xp) w) Hp Hc)
    as [trace ->].
  exists (report_calls xp ++ trace). f_equal. unfold set_files, logged. simpl.
  by rewrite <- app_assoc.
Qed.



(** *** The call in merge_config *)







(** X12: with a good stylesheet, bodies under
    [DistrictBuilder/LegislativeBodies] whose names are byte strings
    and that all have a name, an id and a transform result, template
    files that can all be opened and lowercased names that are pairwise
    different, [create_report_templates] succeeds, leaves for each body
    a file [bard_<lowercased name>.html] holding the transform for the
    id of that body, and changes no other file. *)
Theorem one_template_per_body config xp dir w transform pages :
  stylesheet xp w transform →
  Forall (fun b => ascii_attr b "name" = true) (select bodies_path config) →
  Forall2 (fun b pg => page transform config dir b = Some pg)
    (select bodies_path config) pages →
  Forall (fun p => creatable w p = true) pages.*1 →
  NoDup pages.*1 →
  let r := create_report_templates config (Some xp) dir w in
  r.1 = Ok tt
  ∧ (∀ p html, (p, html) ∈ pages → content_of p r.2 = Some html)
  ∧ (∀ q, q ∉ pages.*1 → files r.2 !! q = files w !! q).
Proof.
  intros Hs _ Hp Hc Hnd. simpl.
  destruct (create_report_templates_run _ _ _ _ _ _ Hs Hp Hc) as [trace ->].
  simpl. split; [done |]. split.
  - intros p html Hin. apply list_elem_of_split in Hin as (pre & post & ->).
    unfold content_of. simpl. rewrite put_pages_last; [done |].
    rewrite fmap_app in Hnd. apply NoDup_app in Hnd as (_ & _ & Hnd).
    simpl in Hnd. by apply NoDup_cons in Hnd as [Hnd _].
  - intros q Hq. by apply put_pages_other.
Qed.

(** X13: bodies whose names, byte strings, are equal once lowercased
    share one template file, and the file is written once per body:
    after a successful run it holds the transform for the last of them
    in document order. *)
Theorem later_body_overwrites config xp dir w transform pre post p html pages :
  stylesheet xp w transform →
  Forall (fun b => ascii_attr b "name" = true) (select bodies_path config) →
  Forall2 (fun b pg => page transform config dir b = Some pg)
    (select bodies_path config) pages →
  Forall (fun p => creatable w p = true) pages.*1 →
  pages = pre ++ (p, html) :: post → p ∉ post.*1 →
  let r := create_report_templates config (Some xp) dir w in
  r.1 = Ok tt ∧ content_of p r.2 = Some html.
Proof.
  intros Hs _ Hp Hc -> Hlast. simpl.
  destruct (create_report_templates_run _ _ _ _ _ _ Hs Hp Hc) as [trace ->].
  simpl. split; [done |]. unfold content_of. simpl.
  by rewrite put_pages_last.
Qed.

(** X14: a body without a name stops [create_report_templates] with
    [AttributeError] at line 393; the templates of the bodies before
    it, whose names are byte strings, are already written and stay,
    those of the bodies after it are not made. *)
Theorem nameless_body_stops_midway config xp dir w transform good bad rest pages :
  stylesheet xp w transform →
  select bodies_path config = good ++ bad :: rest →
  Forall (fun b => ascii_attr b "name" = true) good →
  Forall2 (fun b pg => page transform config dir b = Some pg) good pages →
  Forall (fun p => creatable w p = true) pages.*1 →
  get bad "name" = None →
  let r := create_report_templates config (Some xp) dir w in
  r.1 = Raise AttributeError ∧ files r.2 = put_pages pages (files w).
Proof.
  intros Hs Hsel _ Hp Hc Hbad. simpl.
  rewrite (create_report_templates_start _ _ _ _ _ Hs), Hsel, for_each_app.
  unfold bind.
  destruct (template_loop_run _ _ _ _ _ (logged (report_calls xp) w) Hp Hc)
    as [trace ->].
  cbv beta iota. cbn [for_each]. unfold bind.
  rewrite template_step_nameless by done. done.
Qed.

End TemplatesMore.

(** ** main *)

Section MainMore.
Context `{Lxml} {unicode_tables : Unicode}.


(** X16: unless there are exactly two arguments, [main] touches
    nothing: it prints its usage error when the verbosity is above 0
    and returns. *)
Theorem main_wrong_arguments o args w :
  length args ≠ 2%nat →
  main o args w
  = (Ok None, printed (if 0 <? verbosity o then [Text msg_usage] else []) w).
Proof.
  intros Hlen. unfold main.
  destruct args as [| sch [| cfg [| x args]]]; try done;
    unfold bind, when, printed; destruct w, (0 <? verbosity o); simpl;
    by rewrite ?app_nil_r.
Qed.

(** X17: when validation returns [False], [main] returns at once:
    [merge_config] is not run, so the settings file and every other
    file are as before, and nothing is printed after the messages of
    the validation. *)
Theorem main_invalid_keeps_files o sch cfg w :
  (validate_config sch cfg (verbosity o) w).1 = Ok None →
  main o [sch; cfg] w = (Ok None, (validate_config sch cfg (verbosity o) w).2)
  ∧ files (main o [sch; cfg] w).2 = files w.
Proof.
  intros Hv. unfold main, bind.
  destruct (validate_config_shape sch cfg (verbosity o) w)
    as (r & out & trace & E & _).
  rewrite E in *. simpl in *. subst r. done.
Qed.

(** X18: at verbosity 0 (or below) [main] prints nothing, in any
    run. *)
Theorem main_quiet o args w :
  verbosity o <= 0 → stdout (main o args w).2 = stdout w.
Proof.
  intros Hv. assert (Hq : (0 <? verbosity o) = false) by (apply Z.ltb_ge; lia).
  unfold main. rewrite Hq.
  destruct args as [| sch [| cfg [| x args]]]; try done.
  unfold bind.
  pose proof (validate_config_quiet sch cfg (verbosity o) w Hv) as Hval.
  destruct (validate_config sch cfg (verbosity o) w) as [[[tree |] | e] w1];
    simpl in *; try done.
  pose proof (merge_config_quiet tree (verbosity o) w1 Hv) as Hm.
  pose proof (merge_config_false tree (verbosity o) w1) as Hf.
  destruct (merge_config tree (verbosity o) w1) as [[[] | e] w2]; simpl in *;
    congruence.
Qed.

End MainMore.

(** ** The further properties on the sample documents *)

Section MoreSamples.
Import Sample Cases.


Lemma validate_config_success_witness :
  let r := validate_config "schema.xsd" "plain.xml" 1 world0 in
  r.1 = Ok (Some config_plain)
  ∧ stdout r.2 = [progress_line; Text "Document validated."].
Proof.
  assert (Hv : schema_valid "schema.xsd" "plain.xml" world0 config_plain).
  { exists schema_doc. vm_compute. done. }
  destruct (validate_config_success "schema.xsd" "plain.xml" 1 world0
              config_plain Hv) as (Hr & Ho & _);
    [vm_compute; reflexivity | vm_compute; reflexivity |].
  split; [exact Hr | exact Ho].
Defined.

Lemma body_refs_checked_first_witness :
  let r := validate_config "schema.xsd" "dangling.xml" 2 world0 in
  r.1 = Ok None
  ∧ calls r.2 = [CParse "schema.xsd"; CXMLSchema; CParse "dangling.xml"; CValidate;
                 CXPath "//LegislativeBody[@ref]"; CXPath "//LegislativeBody[@id]"].
Proof.
  assert (Hv : schema_valid "schema.xsd" "dangling.xml" world0 config_dangling).
  { exists schema_doc. vm_compute. done. }
  destruct (body_refs_checked_first "schema.xsd" "dangling.xml" 2 world0
              config_dangling Hv) as (Hr & Hc & _); [vm_compute; reflexivity |].
  split; [exact Hr | exact Hc].
Defined.

Lemma template_copied_whole_witness :
  (copy_template world0).1 = Ok tt
  ∧ content_of settings_out (copy_template world0).2 = Some ("DEBUG = True" +:+ nl).
Proof.
  apply template_copied_whole; vm_compute; reflexivity.
Defined.

Lemma merge_config_overwrites_witness :
  merge_config config_plain 1
    (set_files <[settings_out := Regular "SECRET_KEY = 'old'"]> world0)
  = merge_config config_plain 1
      (set_files <[settings_out := Regular EmptyString]> world0).
Proof.
  apply (merge_config_overwrites _ _ ("DEBUG = True" +:+ nl)).
  vm_compute. reflexivity.
Defined.

Lemma merge_config_touches_settings_only_witness :
  files (merge_config config_bard 1 world0).2 !! "/data/bard_template.xslt"
  = Some (Regular "bard_template.xslt")
  ∧ files (merge_config config_bard 1 world0).2
      !! template_path templates "congressional" = None.
Proof.
  destruct (merge_config_touches_settings_only config_bard 1 world0) as [_ Hf].
  split; (rewrite Hf; [vm_compute; reflexivity | discriminate]).
Defined.

Lemma no_database_leaves_template_witness :
  let r := merge_config config_invalid 2 world0 in
  r.1 = Ok false
  ∧ (merge_body config_invalid world0).1 = Raise IndexError
  ∧ content_of settings_out r.2 = Some ("DEBUG = True" +:+ nl).
Proof.
  apply no_database_leaves_template; vm_compute; reflexivity.
Defined.

Lemma missing_database_attributes_witness :
  content_of settings_out
    (write_database config_bare
       (set_files <[settings_out := Regular EmptyString]> world0)).2
  = Some database_without_attributes.
Proof.
  rewrite (missing_database_attributes config_bare (Element "Database" [] []) []);
    [| reflexivity ..].
  unfold content_of. simpl. rewrite lookup_alter_eq, lookup_insert_eq.
  reflexivity.
Defined.

Lemma unicode_name_raises_witness :
  let r := write_database config_accent
             (set_files <[settings_out := Regular EmptyString]> world0) in
  r.1 = Raise UnicodeEncodeError
  ∧ content_of settings_out r.2 = Some database_header.
Proof.
  cbv zeta.
  rewrite (unicode_name_raises config_accent
             (Element "Database" [("name", "cartes-publiques-é"); ("user", "pm")] [])
             [] "cartes-publiques-é"); [| reflexivity ..].
  split; [reflexivity |].
  unfold content_of. simpl. rewrite lookup_alter_eq, lookup_insert_eq.
  reflexivity.
Defined.

Lemma session_defaults_witness :
  ∃ text,
    (write_project config_plain world0).1 = Ok (project [], root)
    ∧ files (write_project config_plain world0).2
      = alter (fappend (text +:+ nl +:+ "CONCURRENT_SESSIONS = 5" +:+ nl
                             +:+ nl +:+ "SESSION_TIMEOUT = 15" +:+ nl))
              settings_out (files world0).
Proof.
  destruct (session_defaults config_plain (project []) [] world0)
    as [text ->]; [reflexivity | reflexivity | by left | by left |].
  exists text. split; reflexivity.
Defined.


Lemma one_template_per_body_witness :
  let r := create_report_templates config_bard xslt templates world0 in
  r.1 = Ok tt
  ∧ content_of (template_path templates "congressional") r.2
    = Some "<div id='congress'/>"
  ∧ content_of (template_path templates "state senate") r.2
    = Some "<div id='senate'/>"
  ∧ files r.2 !! settings_out = None.
Proof.
  destruct (one_template_per_body config_bard "/data/bard_template.xslt"
              templates world0 stylesheet_doc
              [(template_path templates "congressional", "<div id='congress'/>");
               (template_path templates "state senate", "<div id='senate'/>")])
    as (Hr & Hpages & Hother).
  - exists "bard_template.xslt". vm_compute. done.
  - apply Forall_forall. intros b Hb. vm_compute in Hb.
    repeat (apply elem_of_cons in Hb as [-> | Hb]; [reflexivity |]).
    by apply elem_of_nil in Hb.
  - assert (Hsel : select bodies_path config_bard
                   = [Element "LegislativeBody"
                        [("id", "congress"); ("name", "Congressional")] [];
                      Element "LegislativeBody"
                        [("id", "senate"); ("name", "State Senate")] []])
      by (vm_compute; reflexivity).
    rewrite Hsel. repeat constructor.
  - repeat constructor; vm_compute; reflexivity.
  - simpl. apply NoDup_cons. split; [| apply NoDup_singleton].
    intros Hin. apply elem_of_cons in Hin as [Hin | Hin];
      [vm_compute in Hin; discriminate Hin | by apply elem_of_nil in Hin].
  - split; [exact Hr |]. split; [| split].
    + apply Hpages. apply elem_of_cons. by left.
    + apply Hpages. apply elem_of_cons. right. apply elem_of_cons. by left.
    + rewrite Hother; [vm_compute; reflexivity |].
      simpl. intros Hin.
      repeat (apply elem_of_cons in Hin as [Hin | Hin];
              [vm_compute in Hin; discriminate Hin |]).
      by apply elem_of_nil in Hin.
Defined.

Lemma later_body_overwrites_witness :
  let r := create_report_templates config_twins xslt templates world0 in
  r.1 = Ok tt
  ∧ content_of (template_path templates "senate") r.2 = Some "<div id='lower'/>".
Proof.
  apply (later_body_overwrites config_twins "/data/bard_template.xslt"
           templates world0 stylesheet_doc
           [(template_path templates "senate", "<div id='upper'/>")] []
           (template_path templates "senate") "<div id='lower'/>"
           [(template_path templates "senate", "<div id='upper'/>");
            (template_path templates "senate", "<div id='lower'/>")]).
  - exists "bard_template.xslt". vm_compute. done.
  - apply Forall_forall. intros b Hb. vm_compute in Hb.
    repeat (apply elem_of_cons in Hb as [-> | Hb]; [reflexivity |]).
    by apply elem_of_nil in Hb.
  - assert (Hsel : select bodies_path config_twins
                   = [Element "LegislativeBody" [("id", "upper"); ("name", "Senate")] [];
                      Element "LegislativeBody" [("id", "lower"); ("name", "SENATE")] []])
      by (vm_compute; reflexivity).
    rewrite Hsel. repeat constructor.
  - repeat constructor; vm_compute; reflexivity.
  - reflexivity.
  - apply not_elem_of_nil.
Defined.

Lemma nameless_body_stops_midway_witness :
  let r := create_report_templates config_nameless xslt templates world0 in
  r.1 = Raise AttributeError
  ∧ files r.2 = <[template_path templates "congressional"
                  := Regular "<div id='congress'/>"]> (files world0).
Proof.
  apply (nameless_body_stops_midway config_nameless "/data/bard_template.xslt"
           templates world0 stylesheet_doc
           [Element "LegislativeBody" [("id", "congress"); ("name", "Congressional")] []]
           (Element "LegislativeBody" [("id", "senate")] [])
           [Element "LegislativeBody" [("id", "house"); ("name", "House")] []]
           [(template_path templates "congressional", "<div id='congress'/>")]).
  - exists "bard_template.xslt". vm_compute. done.
  - vm_compute. reflexivity.
  - repeat constructor.
  - repeat constructor.
  - repeat constructor; vm_compute; reflexivity.
  - reflexivity.
Defined.


Lemma main_wrong_arguments_witness :
  main (opts 1) ["schema.xsd"] world0 = (Ok None, printed [Text msg_usage] world0).
Proof. apply (main_wrong_arguments (opts 1) ["schema.xsd"] world0). discriminate. Defined.

Lemma main_invalid_keeps_files_witness :
  files (main (opts 2) ["schema.xsd"; "dangling.xml"] world0).2 = files world0.
Proof.
  apply (main_invalid_keeps_files (opts 2) "schema.xsd" "dangling.xml" world0).
  vm_compute. reflexivity.
Defined.

Lemma main_quiet_witness :
  stdout (main (opts 0) ["schema.xsd"; "plain.xml"] world0).2 = [].
Proof. apply (main_quiet (opts 0) ["schema.xsd"; "plain.xml"] world0). done. Defined.

End MoreSamples.
